(** * Cellular ARFCN calculator: the [NetworkCalculator] class

    A shallow embedding of the calculation class of [MWK-cellular-Calc.py]
    and the properties of its frequency resolver.

    Python's [int] is [Z].  Python's [float] is IEEE 754 binary64, taken
    from the Standard Library's executable specification [SpecFloat]
    (precision 53, exponent bound 1024, round to nearest, ties to even), so
    every rounding the interpreter performs is performed here as well.  A
    [dict] that is only looked up is a [gmap]; the one that is iterated
    ([NETWORK_RANGES]) keeps its insertion order as an association list.
    Exceptions are the [Raise] branch of a small result monad. *)

From Stdlib Require Import ZArith QArith Qabs Lia.
From Stdlib Require Import SpecFloat.
From stdpp Require Import base decidable option list strings pretty gmap.

Local Open Scope Z_scope.

(** ** Python exceptions and the result monad *)

Inductive exn : Type :=
  | ValueError (msg : string)
  | OverflowError (msg : string)
  | ZeroDivisionError (msg : string).

Inductive result (A : Type) : Type :=
  | Ok (a : A)
  | Raise (e : exn).

Arguments Ok {A} a.
Arguments Raise {A} e.

#[global] Instance result_ret : MRet result := λ A a, Ok a.

#[global] Instance result_bind : MBind result := λ A B k r,
  match r with
  | Ok a => k a
  | Raise e => Raise e
  end.

(** ** Binary64 floating point *)

Module Float.

Definition prec : Z := 53.
Definition emax : Z := 1024.

Definition float : Type := spec_float.

Definition add : float → float → float := SFadd prec emax.
Definition sub : float → float → float := SFsub prec emax.
Definition mul : float → float → float := SFmul prec emax.
Definition div : float → float → float := SFdiv prec emax.

(** The nearest binary64 value of an integer (ties to even); integers of
    magnitude [2^1024 - 2^970] and more round to an infinity. *)
Definition of_Z (n : Z) : float := binary_normalize prec emax n 0 false.

(** The value the parser gives a decimal literal [num / 10^digits]: the
    nearest binary64 value.  Both operands are exact for the literals of
    this program, and IEEE division is correctly rounded. *)
Definition of_decimal (num : Z) (digits : nat) : float :=
  div (of_Z num) (of_Z (10 ^ Z.of_nat digits)).

Definition is_zero (x : float) : bool :=
  match x with
  | S754_zero _ => true
  | _ => false
  end.

Definition is_finite (x : float) : bool :=
  match x with
  | S754_zero _ | S754_finite _ _ _ => true
  | _ => false
  end.

(** A float the interpreter can hold: its mantissa and exponent are in
    the binary64 format. *)
Definition valid (x : float) : bool := valid_binary prec emax x.

Definition abs : float → float := SFabs.
Definition ltb : float → float → bool := SFltb.

(** [2.0 ** 1023], half of the first power of two that overflows. *)
Definition two_pow_1023 : float := S754_finite false 4503599627370496 971.

(** The exact rational value of a finite float ([0] for the others). *)
Definition to_Q (x : float) : Q :=
  match x with
  | S754_finite s m e =>
      (inject_Z (if s then Z.neg m else Z.pos m) * Qpower 2 e)%Q
  | _ => 0%Q
  end.

(** [int(n)] converted for mixed arithmetic; CPython raises instead of
    producing an infinity. *)
Definition of_int (n : Z) : result float :=
  match of_Z n with
  | S754_infinity _ => Raise (OverflowError "int too large to convert to float")
  | x => Ok x
  end.

(** [n * x] with [n] an [int] and [x] a [float]. *)
Definition int_mul (n : Z) (x : float) : result float :=
  a ← of_int n; mret (mul a x).

(** [n + x] with [n] an [int] and [x] a [float]. *)
Definition int_add (n : Z) (x : float) : result float :=
  a ← of_int n; mret (add a x).

(** [x / n] with [x] a [float] and [n] an [int]. *)
Definition div_int (x : float) (n : Z) : result float :=
  b ← of_int n;
  if is_zero b then Raise (ZeroDivisionError "float division by zero")
  else mret (div x b).

End Float.

Abbreviation float := Float.float.

(** The float literals of the source. *)
Definition f0_0 : float := Float.of_decimal 0 1.
Definition f0_1 : float := Float.of_decimal 1 1.
Definition f0_2 : float := Float.of_decimal 2 1.
Definition f5_0 : float := Float.of_decimal 50 1.
Definition f880_2 : float := Float.of_decimal 8802 1.
Definition f925_2 : float := Float.of_decimal 9252 1.
Definition f1922_4 : float := Float.of_decimal 19224 1.
Definition f2112_4 : float := Float.of_decimal 21124 1.

(** ** The class and its tables *)

Record NetworkCalculator : Type := {
  NETWORK_RANGES : list (string * list (Z * Z));
  CHANNEL_SPACING : gmap string float;
  NETWORK_CAPABILITIES : gmap string (gmap string string)
}.

Definition caps (technology rate features modulation : string)
  : gmap string string :=
  <["Technology" := technology]>
  (<["Max Data Rate" := rate]>
  (<["Features" := features]>
  (<["Modulation" := modulation]> ∅))).

Definition cls : NetworkCalculator := {|
  NETWORK_RANGES :=
    [ ("GSM 900", [(1, 124); (128, 251)]);
      ("GSM 1800", [(512, 885); (1024, 1885)]);
      ("UMTS 2100", [(10562, 10687)]);
      ("LTE 1800", [(300, 379)]) ];
  CHANNEL_SPACING :=
    <["GSM 900" := f0_2]>
    (<["GSM 1800" := f0_2]>
    (<["UMTS 2100" := f5_0]>
    (<["LTE 1800" := f0_1]> ∅)));
  NETWORK_CAPABILITIES :=
    <["GSM 900" :=
        caps "2G" "115 Kbps (GPRS), 384 Kbps (EDGE)"
             "Voice calls, SMS, Basic data" "GMSK, 8PSK (EDGE)"]>
    (<["GSM 1800" :=
        caps "2G" "115 Kbps (GPRS), 384 Kbps (EDGE)"
             "Voice calls, SMS, Basic data" "GMSK, 8PSK (EDGE)"]>
    (<["UMTS 2100" :=
        caps "3G" "42 Mbps (DC-HSPA+)"
             "Video calls, High-speed data, Enhanced security" "QPSK, 16QAM"]>
    (<["LTE 1800" :=
        caps "4G" "Up to 150 Mbps"
             "High-speed data, VoLTE, Low latency" "QPSK, 16QAM, 64QAM"]> ∅)))
|}.

(** ** The static methods: one formula per standard *)

Definition calculate_gsm900 (arfcn : Z) : result (float * float) :=
  let base_arfcn :=
    if (1 <=? arfcn) && (arfcn <=? 124) then arfcn - 1 else arfcn - 128 in
  up ← Float.int_mul base_arfcn f0_2;
  let uplink := Float.add f880_2 up in
  down ← Float.int_mul base_arfcn f0_2;
  let downlink := Float.add f925_2 down in
  mret (uplink, downlink).

Definition calculate_gsm1800 (arfcn : Z) : result (float * float) :=
  let base_arfcn :=
    if (512 <=? arfcn) && (arfcn <=? 885) then arfcn - 512 else arfcn - 1024 in
  up ← Float.int_mul base_arfcn f0_2;
  uplink ← Float.int_add 1710 up;
  down ← Float.int_mul base_arfcn f0_2;
  downlink ← Float.int_add 1805 down;
  mret (uplink, downlink).

Definition calculate_umts2100 (arfcn : Z) : result (float * float) :=
  let base_arfcn := arfcn - 10562 in
  up ← Float.int_mul base_arfcn f0_2;
  let uplink := Float.add f1922_4 up in
  down ← Float.int_mul base_arfcn f0_2;
  let downlink := Float.add f2112_4 down in
  mret (uplink, downlink).

Definition calculate_lte1800 (arfcn : Z) : result (float * float) :=
  let base_arfcn := arfcn - 300 in
  up ← Float.int_mul base_arfcn f0_1;
  uplink ← Float.int_add 1710 up;
  down ← Float.int_mul base_arfcn f0_1;
  downlink ← Float.int_add 1805 down;
  mret (uplink, downlink).

(** ** The class methods *)

(** The inner loop of [detect_network]: is [arfcn] in one of the inclusive
    ranges, tried in order. *)
Fixpoint in_ranges (ranges : list (Z * Z)) (arfcn : Z) : bool :=
  match ranges with
  | [] => false
  | (start, stop) :: rest =>
      if (start <=? arfcn) && (arfcn <=? stop) then true
      else in_ranges rest arfcn
  end.

(** The outer loop of [detect_network], over the items of the table in
    their order. *)
Fixpoint detect_network_in (items : list (string * list (Z * Z))) (arfcn : Z)
  : option string :=
  match items with
  | [] => None
  | (network, ranges) :: rest =>
      if in_ranges ranges arfcn then Some network
      else detect_network_in rest arfcn
  end.

Definition detect_network (cls : NetworkCalculator) (arfcn : Z) : option string :=
  detect_network_in (NETWORK_RANGES cls) arfcn.

(** Truth value of an [Optional[str]]: [None] and the empty string are
    false. *)
Definition truthy (network : option string) : bool :=
  match network with
  | None => false
  | Some s => negb (String.eqb s "")
  end.

(** The interpreter converts no [int] of more than 4300 decimal digits to
    a string (its default [sys.int_max_str_digits]): the conversion raises
    instead.  [int_str_limit] is [10 ^ 4300], the first integer refused. *)
Definition int_max_str_digits : Z := 4300.

Definition int_str_limit : Z := Eval vm_compute in 10 ^ int_max_str_digits.

Definition digit_limit_message : string :=
  "Exceeds the limit (4300 digits) for integer string conversion; use sys.set_int_max_str_digits() to increase the limit".

(** [str(n)], as an f-string field [{n}] formats an [int]. *)
Definition str_of_int (n : Z) : result string :=
  if int_str_limit <=? Z.abs n then Raise (ValueError digit_limit_message)
  else Ok (pretty n).

(** The text of the message once the channel is formatted. *)
Definition channel_message (digits : string) : string :=
  "ARFCN " +:+ digits +:+ " is not in any known network range".

(** [f"ARFCN {arfcn} is not in any known network range"] *)
Definition invalid_arfcn_message (arfcn : Z) : result string :=
  digits ← str_of_int arfcn; mret (channel_message digits).

Definition calculate_frequencies (cls : NetworkCalculator) (arfcn : Z)
  : result (float * float * string) :=
  let network := detect_network cls arfcn in
  if negb (truthy network) then
    message ← invalid_arfcn_message arfcn; Raise (ValueError message)
  else
    let network := default "" network in
    '(uplink, downlink) ←
      (if String.eqb network "GSM 900" then calculate_gsm900 arfcn
       else if String.eqb network "GSM 1800" then calculate_gsm1800 arfcn
       else if String.eqb network "UMTS 2100" then calculate_umts2100 arfcn
       else calculate_lte1800 arfcn);
    mret (uplink, downlink, network).

Definition calculate_center_frequency (uplink downlink : float) : result float :=
  Float.div_int (Float.add uplink downlink) 2.

Definition get_channel_spacing (cls : NetworkCalculator) (network : string) : float :=
  default f0_0 (CHANNEL_SPACING cls !! network).

Definition get_network_capabilities (cls : NetworkCalculator) (network : string)
  : gmap string string :=
  default ∅ (NETWORK_CAPABILITIES cls !! network).


(** ** The display layer's number format

    [CellularCalculatorGUI.calculate] shows each frequency as
    [f"{x:.3f}"]: the exact value of the float rounded to three decimals,
    ties to even. *)

Definition round_half_even (num den : Z) : Z :=
  let q := num / den in
  let r := num mod den in
  match 2 * r ?= den with
  | Lt => q
  | Eq => if Z.even q then q else q + 1
  | Gt => q + 1
  end.

(** The magnitude [m * 2^e] in thousandths. *)
Definition thousandths (m : positive) (e : Z) : Z :=
  if 0 <=? e then Z.pos m * 2 ^ e * 1000
  else round_half_even (Z.pos m * 1000) (2 ^ (- e)).

Definition three_digits (n : Z) : string :=
  pretty ((n / 100) `mod` 10) +:+ pretty ((n / 10) `mod` 10) +:+ pretty (n `mod` 10).

Definition sign_prefix (s : bool) : string := if s then "-" else "".

Definition format_3f (x : float) : string :=
  match x with
  | S754_nan => "nan"
  | S754_infinity s => sign_prefix s +:+ "inf"
  | S754_zero s => sign_prefix s +:+ "0.000"
  | S754_finite s m e =>
      let n := thousandths m e in
      sign_prefix s +:+ pretty (n / 1000) +:+ "." +:+ three_digits (n `mod` 1000)
  end.

(** ** The specification's view of the tables *)

(** One declared sub-range of a standard with the constants the
    specification gives for it, the decimals in tenths of a MHz. *)
Record band : Type := {
  band_name : string;
  band_start : Z;
  band_stop : Z;
  uplink_tenths : Z;
  downlink_tenths : Z;
  step_tenths : Z
}.

Definition declared_bands : list band := [
  {| band_name := "GSM 900"; band_start := 1; band_stop := 124;
     uplink_tenths := 8802; downlink_tenths := 9252; step_tenths := 2 |};
  {| band_name := "GSM 900"; band_start := 128; band_stop := 251;
     uplink_tenths := 8802; downlink_tenths := 9252; step_tenths := 2 |};
  {| band_name := "GSM 1800"; band_start := 512; band_stop := 885;
     uplink_tenths := 17100; downlink_tenths := 18050; step_tenths := 2 |};
  {| band_name := "GSM 1800"; band_start := 1024; band_stop := 1885;
     uplink_tenths := 17100; downlink_tenths := 18050; step_tenths := 2 |};
  {| band_name := "UMTS 2100"; band_start := 10562; band_stop := 10687;
     uplink_tenths := 19224; downlink_tenths := 21124; step_tenths := 2 |};
  {| band_name := "LTE 1800"; band_start := 300; band_stop := 379;
     uplink_tenths := 17100; downlink_tenths := 18050; step_tenths := 1 |}
].

(** The constants as the floats their decimals denote. *)
Definition uplink_anchor (b : band) : float := Float.of_decimal (uplink_tenths b) 1.
Definition downlink_anchor (b : band) : float := Float.of_decimal (downlink_tenths b) 1.
Definition band_step (b : band) : float := Float.of_decimal (step_tenths b) 1.

(** The formula of a band in exact arithmetic, in tenths of a MHz. *)
Definition exact_uplink_tenths (b : band) (channel : Z) : Z :=
  uplink_tenths b + (channel - band_start b) * step_tenths b.

Definition exact_downlink_tenths (b : band) (channel : Z) : Z :=
  downlink_tenths b + (channel - band_start b) * step_tenths b.

(** A non-negative number of tenths written with three decimals. *)
Definition format_tenths (t : Z) : string :=
  pretty (t / 10) +:+ "." +:+ pretty (t `mod` 10) +:+ "00".

(** [anchor + (channel - start) * step], in binary64. *)
Definition linear_formula (anchor step : float) (start channel : Z) : float :=
  Float.add anchor (Float.mul (Float.of_Z (channel - start)) step).

(** The sub-ranges of a table, each with the name of its standard. *)
Definition sub_ranges (items : list (string * list (Z * Z)))
  : list (string * Z * Z) :=
  items ≫= λ '(network, ranges), (λ '(start, stop), (network, start, stop)) <$> ranges.

(** [arfcn] lies in a declared range of the standard [network]. *)
Definition in_standard (st : NetworkCalculator) (network : string) (arfcn : Z) : Prop :=
  ∃ start stop,
    (network, start, stop) ∈ sub_ranges (NETWORK_RANGES st) ∧ start ≤ arfcn ≤ stop.

(** [arfcn] lies in a declared range of some standard. *)
Definition declared (st : NetworkCalculator) (arfcn : Z) : Prop :=
  ∃ network, in_standard st network arfcn.

(** ** Checks by enumeration *)

Definition same_float (x y : float) : bool :=
  match x, y with
  | S754_zero s, S754_zero t => Bool.eqb s t
  | S754_infinity s, S754_infinity t => Bool.eqb s t
  | S754_nan, S754_nan => true
  | S754_finite s m e, S754_finite t n f => Bool.eqb s t && (m =? n)%positive && (e =? f)
  | _, _ => false
  end.

Definition all_between (lo hi : Z) (p : Z → bool) : bool :=
  forallb p (seqZ lo (hi - lo + 1)).

(** The two frequencies of a channel, [nan] where the call raises. *)
Definition uplink_of (arfcn : Z) : float :=
  match calculate_frequencies cls arfcn with
  | Ok (uplink, _, _) => uplink
  | Raise _ => S754_nan
  end.

Definition downlink_of (arfcn : Z) : float :=
  match calculate_frequencies cls arfcn with
  | Ok (_, downlink, _) => downlink
  | Raise _ => S754_nan
  end.

(** The change of a frequency from a channel to the next, and the duplex
    separation of a channel, as Python's float subtraction gives them. *)
Definition uplink_step (arfcn : Z) : float :=
  Float.sub (uplink_of (arfcn + 1)) (uplink_of arfcn).

Definition downlink_step (arfcn : Z) : float :=
  Float.sub (downlink_of (arfcn + 1)) (downlink_of arfcn).

Definition duplex_separation (arfcn : Z) : float :=
  Float.sub (downlink_of arfcn) (uplink_of arfcn).

(** The duplex separation the specification gives each standard. *)
Definition declared_separation (network : string) : float :=
  if String.eqb network "GSM 900" then Float.of_decimal 450 1
  else if String.eqb network "GSM 1800" then Float.of_decimal 950 1
  else if String.eqb network "UMTS 2100" then Float.of_decimal 1900 1
  else Float.of_decimal 950 1.

(** [x] is finite and its exact value is within [tolerance] of [q]. *)
Definition near (x : float) (q tolerance : Q) : bool :=
  Float.is_finite x && Qle_bool (Qabs (Float.to_Q x - q)) tolerance.

(** The float subtraction [x - y] gave [d] without rounding. *)
Definition exact_difference (d x y : float) : bool :=
  Float.is_finite d && Qeq_bool (Float.to_Q d) (Float.to_Q x - Float.to_Q y).

(** [x] is a float of the format within half a unit in the last place of
    [q]: a nearest binary64 value of [q]. *)
Definition nearest_to (x : float) (q : Q) : bool :=
  Float.valid x &&
  match x with
  | S754_finite _ _ e => Qle_bool (Qabs (Float.to_Q x - q)) (Qpower 2 (e - 1))
  | S754_zero _ => Qeq_bool q 0
  | _ => false
  end.

(** ** Two more conversions of the interpreter

    The window code divides integers and truncates floats. *)

(** An [int] as the dividend or divisor of a true division: the integer
    itself, not yet rounded. *)
Definition int_operand (n : Z) : float :=
  match n with
  | Z0 => S754_zero false
  | Z.pos m => S754_finite false m 0
  | Z.neg m => S754_finite true m 0
  end.

(** [a / b] on two [int]s: the quotient of the integers, rounded once. *)
Definition int_truediv (a b : Z) : result float :=
  if b =? 0 then Raise (ZeroDivisionError "division by zero")
  else
    match Float.div (int_operand a) (int_operand b) with
    | S754_infinity _ =>
        Raise (OverflowError "integer division result too large for a float")
    | x => Ok x
    end.

(** [int(x)] on a [float]: truncation towards zero. *)
Definition int_of_float (x : float) : result Z :=
  match x with
  | S754_nan => Raise (ValueError "cannot convert float NaN to integer")
  | S754_infinity _ => Raise (OverflowError "cannot convert float infinity to integer")
  | S754_zero _ => Ok 0
  | S754_finite s m e =>
      let magnitude := if 0 <=? e then Z.pos m * 2 ^ e else Z.pos m / 2 ^ (- e) in
      Ok (if s then - magnitude else magnitude)
  end.

(** ** The window: [CellularCalculatorGUI]

    The part of the window the calculation reaches: the text of the entry,
    the text of each label (by the name of the attribute that holds the
    label) and the error dialogs shown so far.  Two builtins the handler
    calls are not part of the program and are taken as given: [int] on a
    string and the default formatting of a float inside an f-string. *)

Module CellularCalculatorGUI.

Record gui : Type := {
  arfcn_entry : string;
  texts : gmap string string;
  dialogs : list (string * string)
}.

(** A statement of a method body: it may raise, and what it did to the
    window before raising stays done. *)
Definition action (A : Type) : Type := gui → result A * gui.

#[global] Instance action_ret : MRet action := λ A a g, (Ok a, g).

#[global] Instance action_bind : MBind action := λ A B k m g,
  match m g with
  | (Ok a, g') => k a g'
  | (Raise e, g') => (Raise e, g')
  end.

(** A call that does not touch the window. *)
Definition lift {A : Type} (r : result A) : action A := λ g, (r, g).

(** [self.arfcn_entry.get()] *)
Definition entry_get : action string := λ g, (Ok (arfcn_entry g), g).

(** [self.<label>.config(text=...)] *)
Definition config (label text : string) : action () := λ g,
  (Ok (), {| arfcn_entry := arfcn_entry g;
             texts := <[label := text]> (texts g);
             dialogs := dialogs g |}).

(** [messagebox.showerror(title, message)] *)
Definition showerror (title message : string) (g : gui) : gui :=
  {| arfcn_entry := arfcn_entry g;
     texts := texts g;
     dialogs := dialogs g ++ [(title, message)] |}.

(** [str(e)] of an exception raised with one message. *)
Definition exn_message (e : exn) : string :=
  match e with
  | ValueError msg | OverflowError msg | ZeroDivisionError msg => msg
  end.

(** The label texts [create_results_frame] starts with. *)
Definition create_results_frame : gmap string string :=
  <["uplink_label" := "Uplink Frequency: -- MHz"]>
  (<["downlink_label" := "Downlink Frequency: -- MHz"]>
  (<["center_freq_label" := "Center Frequency: -- MHz"]>
  (<["channel_spacing_label" := "Channel Spacing: -- MHz"]>
  (<["network_label" := "Network Type: --"]>
  (<["tech_label" := "Technology: --"]>
  (<["data_rate_label" := "Max Data Rate: --"]>
  (<["features_label" := "Features: --"]>
  (<["modulation_label" := "Modulation: --"]> ∅)))))))).

(** The size [__init__] gives the window. *)
Definition window_width : Z := 600.
Definition window_height : Z := 900.

(** [int(screen/2 - window/2)], the offset that centres the window. *)
Definition center_offset (screen window : Z) : result Z :=
  half_screen ← int_truediv screen 2;
  half_window ← int_truediv window 2;
  int_of_float (Float.sub half_screen half_window).

(** The geometry string of [__init__], from the two sizes of the screen. *)
Definition window_geometry (screen_width screen_height : Z) : result string :=
  center_x ← center_offset screen_width window_width;
  center_y ← center_offset screen_height window_height;
  width ← str_of_int window_width;
  height ← str_of_int window_height;
  x ← str_of_int center_x;
  y ← str_of_int center_y;
  mret (width +:+ "x" +:+ height +:+ "+" +:+ x +:+ "+" +:+ y).

(** [on_mousewheel]: the units passed to [yview_scroll], if it is called;
    [viewable] is what [self.scrollbar.winfo_viewable()] answers. *)
Definition on_mousewheel (viewable : bool) (delta : Z) : result (option Z) :=
  if viewable then
    notches ← int_truediv delta 120;
    reversed ← Float.int_mul (-1) notches;
    units ← int_of_float reversed;
    mret (Some units)
  else mret None.

Section Handler.

(** [int(text)] and the text an f-string gives a float without a format. *)
Variable int_of_str : string → result Z.
Variable str_of_float : float → string.

(** The body of the [try] of [calculate]. *)
Definition calculate_try : action () :=
  text ← entry_get;
  arfcn ← lift (int_of_str text);
  '(uplink, downlink, network) ← lift (calculate_frequencies cls arfcn);
  center_freq ← lift (calculate_center_frequency uplink downlink);
  let channel_spacing := get_channel_spacing cls network in
  let capabilities := get_network_capabilities cls network in
  config "uplink_label" ("Uplink Frequency: " +:+ format_3f uplink +:+ " MHz");;
  config "downlink_label" ("Downlink Frequency: " +:+ format_3f downlink +:+ " MHz");;
  config "center_freq_label" ("Center Frequency: " +:+ format_3f center_freq +:+ " MHz");;
  config "channel_spacing_label"
         ("Channel Spacing: " +:+ str_of_float channel_spacing +:+ " MHz");;
  config "network_label" ("Network Type: " +:+ network);;
  config "tech_label" ("Technology: " +:+ default "--" (capabilities !! "Technology"));;
  config "data_rate_label"
         ("Max Data Rate: " +:+ default "--" (capabilities !! "Max Data Rate"));;
  config "features_label" ("Features: " +:+ default "--" (capabilities !! "Features"));;
  config "modulation_label"
         ("Modulation: " +:+ default "--" (capabilities !! "Modulation")).

(** [calculate]: the [try] with its two handlers. *)
Definition calculate (g : gui) : gui :=
  match calculate_try g with
  | (Ok _, g') => g'
  | (Raise (ValueError msg), g') => showerror "Error" msg g'
  | (Raise e, g') =>
      showerror "Error" ("An unexpected error occurred: " +:+ exn_message e) g'
  end.

End Handler.

End CellularCalculatorGUI.

Import CellularCalculatorGUI.

(** The nine labels [calculate] writes. *)
Definition result_labels : list string :=
  ["uplink_label"; "downlink_label"; "center_freq_label"; "channel_spacing_label";
   "network_label"; "tech_label"; "data_rate_label"; "features_label";
   "modulation_label"].

(** A stand-in for [int] on the three texts the examples type, and a
    window as [create_results_frame] leaves it with a text typed in. *)
Definition sample_int (text : string) : result Z :=
  if String.eqb text "200" then Ok 200
  else if String.eqb text "125" then Ok 125
  else Raise (ValueError ("invalid literal for int() with base 10: '" +:+ text +:+ "'")).

Definition sample_window (text : string) : gui :=
  {| arfcn_entry := text; texts := create_results_frame; dialogs := [] |}.

(** ** More checks by enumeration *)

(** The centre frequency the window computes for a channel. *)
Definition center_of (arfcn : Z) : float :=
  match calculate_center_frequency (uplink_of arfcn) (downlink_of arfcn) with
  | Ok center => center
  | Raise _ => S754_nan
  end.

(** The midpoint of the two exact frequencies of a band, in tenths of a MHz. *)
Definition exact_center_tenths (b : band) (channel : Z) : Z :=
  (exact_uplink_tenths b channel + exact_downlink_tenths b channel) / 2.

(** The LTE 1800 channel [300 + 2k] and the GSM 1800 channel [512 + k]
    return the same two floats under their two names. *)
Definition same_frequencies_check (k : Z) : bool :=
  match calculate_frequencies cls (300 + 2 * k), calculate_frequencies cls (512 + k) with
  | Ok (u1, d1, n1), Ok (u2, d2, n2) =>
      same_float u1 u2 && same_float d1 d2 &&
      String.eqb n1 "LTE 1800" && String.eqb n2 "GSM 1800"
  | _, _ => false
  end.


(** A check of every integer of a range, one after the other. *)
Fixpoint all_from (count : nat) (lo : Z) (p : Z → bool) : bool :=
  match count with
  | O => true
  | S k => if p lo then all_from k (lo + 1) p else false
  end.

Definition all_in (lo hi : Z) (p : Z → bool) : bool :=
  all_from (Z.to_nat (hi - lo + 1)) lo p.

Definition result_Z_eqb (r : result Z) (n : Z) : bool :=
  match r with
  | Ok m => m =? n
  | Raise _ => false
  end.

Definition result_units_eqb (r : result (option Z)) (n : Z) : bool :=
  match r with
  | Ok (Some m) => m =? n
  | _ => false
  end.

(** * Properties *)

(** ** The result monad and enumeration *)

Lemma same_float_eq (x y : float) : same_float x y = true → x = y.
Proof.
  destruct x as [s|s| |s m e], y as [t|t| |t n f]; simpl; try discriminate.
  - intros ->%Bool.eqb_prop. reflexivity.
  - intros ->%Bool.eqb_prop. reflexivity.
  - reflexivity.
  - intros [[->%Bool.eqb_prop ->%Pos.eqb_eq]%andb_prop ->%Z.eqb_eq]%andb_prop.
    reflexivity.
Qed.

Lemma all_between_spec (lo hi : Z) (p : Z → bool) :
  all_between lo hi p = true → ∀ n, lo ≤ n ≤ hi → p n = true.
Proof.
  unfold all_between. rewrite forallb_forall. intros Hall n Hn.
  apply Hall, list_elem_of_In, elem_of_seqZ. lia.
Qed.

(** Enumerate a bounded integer: [by_enumeration lo hi] settles a goal
    [∀ n, lo ≤ n ≤ hi → p n = true] by one evaluation. *)
Ltac by_enumeration lo hi :=
  apply (all_between_spec lo hi); vm_compute; reflexivity.

(** ** The literals

    Each float literal of the source, computed by one correctly rounded
    division, is a nearest binary64 value of its decimal. *)

Lemma literals_nearest :
  Forall (λ '(x, q), nearest_to x q = true)
    [ (f0_0, 0%Q); (f0_1, 1 # 10); (f0_2, 2 # 10); (f5_0, 5%Q);
      (f880_2, 8802 # 10); (f925_2, 9252 # 10);
      (f1922_4, 19224 # 10); (f2112_4, 21124 # 10);
      (Float.of_Z 1710, 1710%Q); (Float.of_Z 1805, 1805%Q) ].
Proof. repeat apply Forall_cons_2; [..|apply Forall_nil_2]; vm_compute; reflexivity. Qed.

(** ** Conversions of the integers the formulas meet *)

Lemma of_int_finite (n : Z) :
  Float.is_finite (Float.of_Z n) = true → Float.of_int n = Ok (Float.of_Z n).
Proof.
  unfold Float.of_int. destruct (Float.of_Z n); simpl; try discriminate; reflexivity.
Qed.

Lemma of_Z_offset_finite (n : Z) :
  0 ≤ n ≤ 861 → Float.is_finite (Float.of_Z n) = true.
Proof. revert n. by_enumeration 0 861. Qed.

Lemma of_int_offset (n : Z) : 0 ≤ n ≤ 861 → Float.of_int n = Ok (Float.of_Z n).
Proof. intros Hn. apply of_int_finite, of_Z_offset_finite, Hn. Qed.

Lemma int_mul_offset (n : Z) (x : float) :
  0 ≤ n ≤ 861 → Float.int_mul n x = Ok (Float.mul (Float.of_Z n) x).
Proof. intros Hn. unfold Float.int_mul. rewrite of_int_offset by exact Hn. reflexivity. Qed.

Lemma int_add_1710 (x : float) :
  Float.int_add 1710 x = Ok (Float.add (Float.of_decimal 17100 1) x).
Proof. reflexivity. Qed.

Lemma int_add_1805 (x : float) :
  Float.int_add 1805 x = Ok (Float.add (Float.of_decimal 18050 1) x).
Proof. reflexivity. Qed.

(** ** The range scan *)

Lemma in_ranges_true (ranges : list (Z * Z)) (arfcn : Z) :
  in_ranges ranges arfcn = true ↔
  ∃ start stop, (start, stop) ∈ ranges ∧ start ≤ arfcn ≤ stop.
Proof.
  induction ranges as [|[a b] rest IH]; simpl.
  - split; [discriminate|]. intros (? & ? & []%elem_of_nil & _).
  - destruct (Z.leb_spec a arfcn), (Z.leb_spec arfcn b); simpl;
      try (split; [intros _; exists a, b; split; [left | lia] | reflexivity]).
    all: rewrite IH; split;
      [ intros (s & t & Hin & Hr); exists s, t; split; [right; exact Hin | exact Hr]
      | intros (s & t & Hin & Hr); apply elem_of_cons in Hin as [[= -> ->]|Hin];
        [lia | exists s, t; split; assumption] ].
Qed.

Lemma elem_of_sub_ranges (items : list (string * list (Z * Z)))
    (network : string) (start stop : Z) :
  (network, start, stop) ∈ sub_ranges items ↔
  ∃ ranges, (network, ranges) ∈ items ∧ (start, stop) ∈ ranges.
Proof.
  unfold sub_ranges. rewrite list_elem_of_bind. split.
  - intros ([n ranges] & Hin & Hitem). apply list_elem_of_fmap in Hin as ([a b] & [= -> -> ->] & Hab).
    exists ranges. split; assumption.
  - intros (ranges & Hitem & Hab). exists (network, ranges). split; [|exact Hitem].
    apply list_elem_of_fmap. exists (start, stop). split; [reflexivity | exact Hab].
Qed.

Lemma in_standard_scan (st : NetworkCalculator) (network : string) (arfcn : Z) :
  in_standard st network arfcn ↔
  ∃ ranges, (network, ranges) ∈ NETWORK_RANGES st ∧ in_ranges ranges arfcn = true.
Proof.
  unfold in_standard. split.
  - intros (a & b & (ranges & Hitem & Hab)%elem_of_sub_ranges & Hr).
    exists ranges. split; [exact Hitem|]. apply in_ranges_true. exists a, b. split; assumption.
  - intros (ranges & Hitem & (a & b & Hab & Hr)%in_ranges_true).
    exists a, b. split; [|exact Hr]. apply elem_of_sub_ranges. exists ranges. split; assumption.
Qed.

Lemma detect_network_in_Some (items : list (string * list (Z * Z)))
    (arfcn : Z) (network : string) :
  detect_network_in items arfcn = Some network →
  ∃ ranges, (network, ranges) ∈ items ∧ in_ranges ranges arfcn = true.
Proof.
  induction items as [|[n ranges] rest IH]; simpl; [discriminate|].
  destruct (in_ranges ranges arfcn) eqn:Hin.
  - intros [= ->]. exists ranges. split; [left | exact Hin].
  - intros (rs & Hitem & Hrs)%IH. exists rs. split; [right; exact Hitem | exact Hrs].
Qed.

Lemma detect_network_in_None (items : list (string * list (Z * Z))) (arfcn : Z) :
  detect_network_in items arfcn = None ↔
  ∀ network ranges, (network, ranges) ∈ items → in_ranges ranges arfcn = false.
Proof.
  induction items as [|[n ranges] rest IH]; simpl.
  - split; [|reflexivity]. intros _ ? ? []%elem_of_nil.
  - destruct (in_ranges ranges arfcn) eqn:Hin.
    + split; [discriminate|]. intros Hall. rewrite (Hall n ranges) in Hin by left. discriminate.
    + rewrite IH. split.
      * intros Hall network rs [[= -> ->]|Hitem]%elem_of_cons; [exact Hin | eapply Hall, Hitem].
      * intros Hall network rs Hitem. eapply Hall. right. exact Hitem.
Qed.

Lemma detect_network_declared (st : NetworkCalculator) (arfcn : Z) :
  declared st arfcn ↔ is_Some (detect_network st arfcn).
Proof.
  unfold declared, detect_network. split.
  - intros (network & (ranges & Hitem & Hin)%in_standard_scan).
    destruct (detect_network_in (NETWORK_RANGES st) arfcn) eqn:Hd; [eexists; reflexivity|].
    rewrite detect_network_in_None in Hd. rewrite (Hd _ _ Hitem) in Hin. discriminate.
  - intros [network Hd]. exists network. apply in_standard_scan.
    apply detect_network_in_Some, Hd.
Qed.

(** The scan of the class's own table, range by range. *)
Lemma detect_network_cls (arfcn : Z) :
  detect_network cls arfcn =
    if decide (1 ≤ arfcn ≤ 124 ∨ 128 ≤ arfcn ≤ 251) then Some "GSM 900"
    else if decide (512 ≤ arfcn ≤ 885 ∨ 1024 ≤ arfcn ≤ 1885) then Some "GSM 1800"
    else if decide (10562 ≤ arfcn ≤ 10687) then Some "UMTS 2100"
    else if decide (300 ≤ arfcn ≤ 379) then Some "LTE 1800"
    else None.
Proof.
  unfold detect_network; simpl.
  repeat match goal with
         | |- context [?a <=? ?b] => destruct (Z.leb_spec a b); simpl
         end;
  repeat case_decide; try reflexivity; lia.
Qed.

(** ** The four formulas on their own ranges *)

Ltac range_test :=
  repeat match goal with
         | |- context [?a <=? ?b] => destruct (Z.leb_spec a b); try lia
         end;
  cbn [andb].

Ltac formula_steps :=
  rewrite ?int_mul_offset by lia; cbn [mbind result_bind];
  rewrite ?int_add_1710, ?int_add_1805; cbn [mbind result_bind];
  reflexivity.

Lemma calculate_gsm900_low (arfcn : Z) :
  1 ≤ arfcn ≤ 124 →
  calculate_gsm900 arfcn =
    Ok (linear_formula f880_2 f0_2 1 arfcn, linear_formula f925_2 f0_2 1 arfcn).
Proof. intros Hr. unfold calculate_gsm900, linear_formula. range_test. formula_steps. Qed.

Lemma calculate_gsm900_high (arfcn : Z) :
  128 ≤ arfcn ≤ 251 →
  calculate_gsm900 arfcn =
    Ok (linear_formula f880_2 f0_2 128 arfcn, linear_formula f925_2 f0_2 128 arfcn).
Proof. intros Hr. unfold calculate_gsm900, linear_formula. range_test. formula_steps. Qed.

Lemma calculate_gsm1800_low (arfcn : Z) :
  512 ≤ arfcn ≤ 885 →
  calculate_gsm1800 arfcn =
    Ok (linear_formula (Float.of_decimal 17100 1) f0_2 512 arfcn,
        linear_formula (Float.of_decimal 18050 1) f0_2 512 arfcn).
Proof. intros Hr. unfold calculate_gsm1800, linear_formula. range_test. formula_steps. Qed.

Lemma calculate_gsm1800_high (arfcn : Z) :
  1024 ≤ arfcn ≤ 1885 →
  calculate_gsm1800 arfcn =
    Ok (linear_formula (Float.of_decimal 17100 1) f0_2 1024 arfcn,
        linear_formula (Float.of_decimal 18050 1) f0_2 1024 arfcn).
Proof. intros Hr. unfold calculate_gsm1800, linear_formula. range_test. formula_steps. Qed.

Lemma calculate_umts2100_range (arfcn : Z) :
  10562 ≤ arfcn ≤ 10687 →
  calculate_umts2100 arfcn =
    Ok (linear_formula f1922_4 f0_2 10562 arfcn, linear_formula f2112_4 f0_2 10562 arfcn).
Proof. intros Hr. unfold calculate_umts2100, linear_formula. formula_steps. Qed.

Lemma calculate_lte1800_range (arfcn : Z) :
  300 ≤ arfcn ≤ 379 →
  calculate_lte1800 arfcn =
    Ok (linear_formula (Float.of_decimal 17100 1) f0_1 300 arfcn,
        linear_formula (Float.of_decimal 18050 1) f0_1 300 arfcn).
Proof. intros Hr. unfold calculate_lte1800, linear_formula. formula_steps. Qed.

(** ** [calculate_frequencies] by the detected standard *)

Lemma int_str_limit_value : int_str_limit = 10 ^ int_max_str_digits.
Proof. vm_compute. reflexivity. Qed.

(** An undetected channel raises [ValueError] one way or the other: from
    the formatting of a channel of more than 4300 digits, or from the
    [raise] with the formatted message. *)
Lemma calculate_frequencies_undetected (st : NetworkCalculator) (arfcn : Z) :
  detect_network st arfcn = None →
  calculate_frequencies st arfcn =
    Raise (ValueError (if int_str_limit <=? Z.abs arfcn then digit_limit_message
                       else channel_message (pretty arfcn))).
Proof.
  unfold calculate_frequencies, invalid_arfcn_message, str_of_int. intros ->.
  cbn [truthy negb]. destruct (int_str_limit <=? Z.abs arfcn); reflexivity.
Qed.

Lemma calculate_frequencies_undetected_short (st : NetworkCalculator) (arfcn : Z) :
  detect_network st arfcn = None →
  Z.abs arfcn < 10 ^ int_max_str_digits →
  calculate_frequencies st arfcn = Raise (ValueError (channel_message (pretty arfcn))).
Proof.
  intros Hd Hshort. rewrite (calculate_frequencies_undetected st arfcn Hd).
  rewrite <- int_str_limit_value in Hshort.
  rewrite (proj2 (Z.leb_gt _ _)) by exact Hshort. reflexivity.
Qed.

Lemma calculate_frequencies_undetected_long (st : NetworkCalculator) (arfcn : Z) :
  detect_network st arfcn = None →
  10 ^ int_max_str_digits ≤ Z.abs arfcn →
  calculate_frequencies st arfcn = Raise (ValueError digit_limit_message).
Proof.
  intros Hd Hlong. rewrite (calculate_frequencies_undetected st arfcn Hd).
  rewrite <- int_str_limit_value in Hlong.
  rewrite (proj2 (Z.leb_le _ _)) by exact Hlong. reflexivity.
Qed.

(** What [calculate_frequencies] raises on an undetected channel, by the
    length of the channel. *)
Lemma calculate_frequencies_undetected_message (st : NetworkCalculator) (arfcn : Z) :
  detect_network st arfcn = None →
  ∃ message,
    calculate_frequencies st arfcn = Raise (ValueError message) ∧
    (Z.abs arfcn < 10 ^ int_max_str_digits → message = channel_message (pretty arfcn)) ∧
    (10 ^ int_max_str_digits ≤ Z.abs arfcn → message = digit_limit_message).
Proof.
  intros Hd. eexists. split; [apply calculate_frequencies_undetected, Hd|].
  rewrite <- int_str_limit_value. split; intros Hn.
  - rewrite (proj2 (Z.leb_gt _ _)) by exact Hn. reflexivity.
  - rewrite (proj2 (Z.leb_le _ _)) by exact Hn. reflexivity.
Qed.

Lemma calculate_frequencies_gsm900 (arfcn : Z) :
  1 ≤ arfcn ≤ 124 ∨ 128 ≤ arfcn ≤ 251 →
  calculate_frequencies cls arfcn =
    '(uplink, downlink) ← calculate_gsm900 arfcn; mret (uplink, downlink, "GSM 900").
Proof.
  intros Hr. unfold calculate_frequencies. rewrite detect_network_cls.
  rewrite decide_True by exact Hr. reflexivity.
Qed.

Lemma calculate_frequencies_gsm1800 (arfcn : Z) :
  512 ≤ arfcn ≤ 885 ∨ 1024 ≤ arfcn ≤ 1885 →
  calculate_frequencies cls arfcn =
    '(uplink, downlink) ← calculate_gsm1800 arfcn; mret (uplink, downlink, "GSM 1800").
Proof.
  intros Hr. unfold calculate_frequencies. rewrite detect_network_cls.
  rewrite decide_False by lia. rewrite decide_True by exact Hr. reflexivity.
Qed.

Lemma calculate_frequencies_umts2100 (arfcn : Z) :
  10562 ≤ arfcn ≤ 10687 →
  calculate_frequencies cls arfcn =
    '(uplink, downlink) ← calculate_umts2100 arfcn; mret (uplink, downlink, "UMTS 2100").
Proof.
  intros Hr. unfold calculate_frequencies. rewrite detect_network_cls.
  rewrite !decide_False by lia. rewrite decide_True by exact Hr. reflexivity.
Qed.

Lemma calculate_frequencies_lte1800 (arfcn : Z) :
  300 ≤ arfcn ≤ 379 →
  calculate_frequencies cls arfcn =
    '(uplink, downlink) ← calculate_lte1800 arfcn; mret (uplink, downlink, "LTE 1800").
Proof.
  intros Hr. unfold calculate_frequencies. rewrite detect_network_cls.
  rewrite !decide_False by lia. rewrite decide_True by exact Hr. reflexivity.
Qed.

Lemma band_cases (P : band → Prop) :
  Forall P declared_bands → ∀ b, b ∈ declared_bands → P b.
Proof. intros HP b Hb. rewrite Forall_forall in HP. apply HP, Hb. Qed.

Lemma declared_bands_table :
  (λ b, (band_name b, band_start b, band_stop b)) <$> declared_bands
  = sub_ranges (NETWORK_RANGES cls).
Proof. reflexivity. Qed.

Lemma band_in_standard (b : band) (arfcn : Z) :
  b ∈ declared_bands → band_start b ≤ arfcn ≤ band_stop b →
  in_standard cls (band_name b) arfcn.
Proof.
  intros Hb Hr. exists (band_start b), (band_stop b). split; [|exact Hr].
  rewrite <- declared_bands_table.
  apply (list_elem_of_fmap_2 (λ b, (band_name b, band_start b, band_stop b))), Hb.
Qed.

Lemma calculate_frequencies_band (b : band) (arfcn : Z) :
  b ∈ declared_bands →
  band_start b ≤ arfcn ≤ band_stop b →
  calculate_frequencies cls arfcn =
    Ok (linear_formula (uplink_anchor b) (band_step b) (band_start b) arfcn,
        linear_formula (downlink_anchor b) (band_step b) (band_start b) arfcn,
        band_name b).
Proof.
  intros Hb Hr. revert Hr. pattern b. revert b Hb. apply band_cases.
  repeat apply Forall_cons_2; [..|apply Forall_nil_2];
    unfold uplink_anchor, downlink_anchor, band_step;
    cbn [band_start band_stop band_name uplink_tenths downlink_tenths step_tenths];
    intros Hr.
  - rewrite calculate_frequencies_gsm900, calculate_gsm900_low by lia. reflexivity.
  - rewrite calculate_frequencies_gsm900, calculate_gsm900_high by lia. reflexivity.
  - rewrite calculate_frequencies_gsm1800, calculate_gsm1800_low by lia. reflexivity.
  - rewrite calculate_frequencies_gsm1800, calculate_gsm1800_high by lia. reflexivity.
  - rewrite calculate_frequencies_umts2100, calculate_umts2100_range by lia. reflexivity.
  - rewrite calculate_frequencies_lte1800, calculate_lte1800_range by lia. reflexivity.
Qed.

Lemma declared_band (arfcn : Z) :
  declared cls arfcn →
  ∃ b, b ∈ declared_bands ∧ band_start b ≤ arfcn ≤ band_stop b.
Proof.
  intros (network & start & stop & Hin & Hr).
  rewrite <- declared_bands_table in Hin.
  apply list_elem_of_fmap in Hin as (b & [= -> -> ->] & Hb).
  exists b. split; assumption.
Qed.

(** C1. For every channel inside a declared range of a standard,
    [calculate_frequencies] returns the standard's name with
    uplink = uplink anchor + (channel - start of that sub-range) * step and
    downlink = downlink anchor + (channel - start of that sub-range) * step,
    the anchors, steps and starts being those of [declared_bands]
    (GSM 900: 880.2/925.2, 0.2, starts 1 and 128; GSM 1800: 1710.0/1805.0,
    0.2, starts 512 and 1024; UMTS 2100: 1922.4/2112.4, 0.2, start 10562;
    LTE 1800: 1710.0/1805.0, 0.1, start 300), all in binary64 arithmetic. *)
Theorem calculate_frequencies_linear (b : band) (arfcn : Z) :
  b ∈ declared_bands →
  band_start b ≤ arfcn ≤ band_stop b →
  in_standard cls (band_name b) arfcn ∧
  calculate_frequencies cls arfcn =
    Ok (linear_formula (uplink_anchor b) (band_step b) (band_start b) arfcn,
        linear_formula (downlink_anchor b) (band_step b) (band_start b) arfcn,
        band_name b).
Proof.
  intros Hb Hr. split.
  - apply band_in_standard; assumption.
  - apply calculate_frequencies_band; assumption.
Qed.

Lemma calculate_frequencies_linear_witness :
  calculate_frequencies cls 200 =
    Ok (linear_formula f880_2 f0_2 128 200, linear_formula f925_2 f0_2 128 200, "GSM 900").
Proof.
  refine (proj2 (calculate_frequencies_linear
    {| band_name := "GSM 900"; band_start := 128; band_stop := 251;
       uplink_tenths := 8802; downlink_tenths := 9252; step_tenths := 2 |} 200 _ _)).
  - right. left.
  - simpl. lia.
Defined.

(** ** The error of an undeclared channel *)

Lemma string_length_app (s t : string) :
  String.length (s +:+ t) = (String.length s + String.length t)%nat.
Proof. induction s as [|a s IH]; simpl; [reflexivity | rewrite IH; reflexivity]. Qed.

Lemma string_app_inv_tail (s1 s2 t : string) : s1 +:+ t = s2 +:+ t → s1 = s2.
Proof.
  revert s2. induction s1 as [|a s1 IH]; intros [|b s2] Heq.
  - reflexivity.
  - apply (f_equal String.length) in Heq.
    rewrite !string_length_app in Heq. simpl in Heq. lia.
  - apply (f_equal String.length) in Heq.
    rewrite !string_length_app in Heq. simpl in Heq. lia.
  - change (String a (s1 +:+ t) = String b (s2 +:+ t)) in Heq.
    injection Heq as -> Heq. f_equal. apply IH, Heq.
Qed.

(** The message determines the channel it reports. *)
Lemma channel_message_inj (a b : Z) :
  channel_message (pretty a) = channel_message (pretty b) → a = b.
Proof.
  unfold channel_message. intros Heq.
  apply String.app_inj in Heq. apply string_app_inv_tail in Heq.
  apply pretty_Z_inj, Heq.
Qed.

Lemma digit_limit_message_not_channel (digits : string) :
  digit_limit_message ≠ channel_message digits.
Proof.
  intros Heq. apply (f_equal (String.get 0)) in Heq. vm_compute in Heq. discriminate.
Qed.

Lemma not_declared_undetected (arfcn : Z) :
  ¬ declared cls arfcn → detect_network cls arfcn = None.
Proof.
  rewrite detect_network_declared. destruct (detect_network cls arfcn); [|reflexivity].
  intros []. eexists; reflexivity.
Qed.

Lemma beyond_ranges_undetected (arfcn : Z) :
  10688 ≤ Z.abs arfcn → detect_network cls arfcn = None.
Proof.
  intros Hn. rewrite detect_network_cls. rewrite !decide_False by lia. reflexivity.
Qed.

Lemma int_str_limit_large : 32768 ≤ int_str_limit.
Proof. vm_compute. discriminate. Qed.

(** An integer of fewer than five digits is always formatted. *)
Lemma str_of_int_short (n : Z) : Z.abs n < 32768 → str_of_int n = Ok (pretty n).
Proof.
  intros Hn. pose proof int_str_limit_large as Hlarge. unfold str_of_int.
  rewrite (proj2 (Z.leb_gt _ _)) by lia. reflexivity.
Qed.

(** C2 as stated fails: [10 ^ 4300] and [10 ^ 4300 + 1] lie outside every
    declared range, and on both the call raises the same [ValueError], that
    of the refused conversion, whose message is not the channel's message
    and does not tell the two channels apart. *)
Lemma undeclared_beyond_digit_limit :
  ¬ declared cls (10 ^ 4300) ∧
  calculate_frequencies cls (10 ^ 4300) = Raise (ValueError digit_limit_message) ∧
  calculate_frequencies cls (10 ^ 4300 + 1) = Raise (ValueError digit_limit_message) ∧
  digit_limit_message ≠ channel_message (pretty (10 ^ 4300)).
Proof.
  assert (Hlimit : 10 ^ 4300 = int_str_limit) by (symmetry; apply int_str_limit_value).
  pose proof int_str_limit_large as Hlarge.
  rewrite Hlimit. split_and!.
  - rewrite detect_network_declared, beyond_ranges_undetected by lia. intros [? [=]].
  - apply calculate_frequencies_undetected_long; [apply beyond_ranges_undetected; lia|].
    rewrite <- int_str_limit_value. lia.
  - apply calculate_frequencies_undetected_long; [apply beyond_ranges_undetected; lia|].
    rewrite <- int_str_limit_value. lia.
  - apply digit_limit_message_not_channel.
Qed.

(** C2, amended. [calculate_frequencies] raises exactly on the integers
    outside every declared range of every standard, and what it raises
    there is a [ValueError]: for a channel of at most 4300 decimal digits
    the one whose message spells the offending channel (and so determines
    it), for a longer one the error of the refused conversion.  Inside a
    declared range the call returns.  The listed channels 0, 125, 252, 886,
    1886, 10561, 10688, 299, 380 and -5 are outside and raise the error that
    spells them. *)
Theorem calculate_frequencies_raises_iff :
  (∀ arfcn : Z,
     ((∃ e, calculate_frequencies cls arfcn = Raise e) ↔ ¬ declared cls arfcn) ∧
     (¬ declared cls arfcn →
        ∃ message,
          calculate_frequencies cls arfcn = Raise (ValueError message) ∧
          (Z.abs arfcn < 10 ^ 4300 → message = channel_message (pretty arfcn)) ∧
          (10 ^ 4300 ≤ Z.abs arfcn → message = digit_limit_message)) ∧
     (declared cls arfcn →
        ∃ uplink downlink network,
          calculate_frequencies cls arfcn = Ok (uplink, downlink, network)) ∧
     (∀ other,
        channel_message (pretty other) = channel_message (pretty arfcn) → other = arfcn)) ∧
  Forall (λ arfcn,
            ¬ declared cls arfcn ∧
            calculate_frequencies cls arfcn =
              Raise (ValueError (channel_message (pretty arfcn))))
         [0; 125; 252; 886; 1886; 10561; 10688; 299; 380; -5].
Proof.
  assert (Hin : ∀ arfcn, declared cls arfcn →
            ∃ uplink downlink network,
              calculate_frequencies cls arfcn = Ok (uplink, downlink, network)).
  { intros arfcn (b & Hb & Hr)%declared_band.
    rewrite (calculate_frequencies_band b arfcn Hb Hr). eauto. }
  assert (Hout : ∀ arfcn, ¬ declared cls arfcn →
            ∃ message,
              calculate_frequencies cls arfcn = Raise (ValueError message) ∧
              (Z.abs arfcn < 10 ^ 4300 → message = channel_message (pretty arfcn)) ∧
              (10 ^ 4300 ≤ Z.abs arfcn → message = digit_limit_message)).
  { intros arfcn Hn.
    apply (calculate_frequencies_undetected_message cls), not_declared_undetected, Hn. }
  split.
  - intros arfcn. split; [split|split; [|split]].
    + intros [e He] (u & d & n & Hok)%Hin. congruence.
    + intros (message & Hraise & _)%Hout. eexists. exact Hraise.
    + apply Hout.
    + apply Hin.
    + intros other. apply channel_message_inj.
  - repeat apply Forall_cons_2; [..|apply Forall_nil_2].
    all: match goal with
         | |- ¬ declared cls ?n ∧ _ =>
             assert (Hn : ¬ declared cls n);
             [ rewrite detect_network_declared; vm_compute; intros [? [=]]
             | split; [exact Hn | vm_compute; reflexivity] ]
         end.
Qed.

(** ** Range starts *)

(** C3. Channel 1 gives GSM 900 with uplink 880.200, downlink 925.200 and
    centre 902.700; channel 512 gives GSM 1800 with 1710.000 and 1805.000;
    channel 10562 gives UMTS 2100 with 1922.400 and 2112.400; channel 300
    gives LTE 1800 with 1710.000 and 1805.000.  Every range-start channel
    returns exactly the two anchors of its standard.  The decimals denote
    their nearest binary64 values, and they are also what the display
    prints with three decimals. *)
Theorem range_start_anchors :
  calculate_frequencies cls 1 =
    Ok (Float.of_decimal 880200 3, Float.of_decimal 925200 3, "GSM 900") ∧
  calculate_center_frequency (Float.of_decimal 880200 3) (Float.of_decimal 925200 3) =
    Ok (Float.of_decimal 902700 3) ∧
  calculate_frequencies cls 512 =
    Ok (Float.of_decimal 1710000 3, Float.of_decimal 1805000 3, "GSM 1800") ∧
  calculate_frequencies cls 10562 =
    Ok (Float.of_decimal 1922400 3, Float.of_decimal 2112400 3, "UMTS 2100") ∧
  calculate_frequencies cls 300 =
    Ok (Float.of_decimal 1710000 3, Float.of_decimal 1805000 3, "LTE 1800") ∧
  Forall (λ b, calculate_frequencies cls (band_start b) =
                 Ok (uplink_anchor b, downlink_anchor b, band_name b))
         declared_bands ∧
  format_3f <$> [uplink_of 1; downlink_of 1; Float.of_decimal 902700 3] =
    ["880.200"; "925.200"; "902.700"] ∧
  format_3f <$> [uplink_of 512; downlink_of 512] = ["1710.000"; "1805.000"] ∧
  format_3f <$> [uplink_of 10562; downlink_of 10562] = ["1922.400"; "2112.400"] ∧
  format_3f <$> [uplink_of 300; downlink_of 300] = ["1710.000"; "1805.000"].
Proof.
  split_and!;
    lazymatch goal with
    | |- Forall _ _ => repeat apply Forall_cons_2; [..|apply Forall_nil_2]
    | |- _ => idtac
    end; vm_compute; reflexivity.
Qed.

(** Sample renderings of the display format, ties included. *)
Example format_3f_samples :
  format_3f <$> [Float.of_decimal 5 1; Float.of_decimal 625 4; Float.of_decimal 1875 4;
                 Float.of_decimal (-15) 1; Float.of_decimal 99996 5; Float.of_Z 0;
                 Float.of_decimal 123456 2] =
  ["0.500"; "0.062"; "0.188"; "-1.500"; "1.000"; "0.000"; "1234.560"].
Proof. vm_compute. reflexivity. Qed.

(** ** Channel steps and duplex separation *)

Lemma same_float_refl (x : float) : same_float x x = true.
Proof.
  destruct x as [s|s| |s m e]; simpl; rewrite ?Bool.eqb_reflx, ?Pos.eqb_refl, ?Z.eqb_refl;
    reflexivity.
Qed.

Lemma same_float_neq (x y : float) : same_float x y = false → x ≠ y.
Proof. intros Hs ->. rewrite same_float_refl in Hs. discriminate. Qed.

Lemma near_spec (x : float) (q tolerance : Q) :
  near x q tolerance = true →
  Float.is_finite x = true ∧ (Qabs (Float.to_Q x - q) <= tolerance)%Q.
Proof.
  unfold near. intros [Hf Hq]%andb_prop. split; [exact Hf|].
  apply Qle_bool_iff, Hq.
Qed.

Lemma exact_difference_spec (d x y : float) :
  exact_difference d x y = true →
  (Float.to_Q d == Float.to_Q x - Float.to_Q y)%Q.
Proof. unfold exact_difference. intros [_ Hq]%andb_prop. apply Qeq_bool_iff, Hq. Qed.

(** C4 as stated fails: from channel 10562 to 10563 the uplink changes by a
    binary64 value that is not the float 0.2, and whose exact value is not
    1/5 either. *)
Lemma umts_step_not_exact :
  10562 ≤ 10562 ≤ 10686 ∧
  uplink_step 10562 ≠ Float.of_decimal 2 1 ∧
  ¬ (Float.to_Q (uplink_of 10563) - Float.to_Q (uplink_of 10562) == 1 # 5)%Q.
Proof.
  split; [lia|]. split.
  - apply same_float_neq. vm_compute. reflexivity.
  - intros Heq. apply Qeq_bool_iff in Heq. vm_compute in Heq. discriminate.
Qed.

(** C4, amended. For every UMTS 2100 channel from 10562 to 10686 the
    formula multiplies the channel offset by the constant 0.2, so the uplink
    and the downlink of the next channel exceed its own by 0.2 up to
    binary64 rounding: the float difference is computed without rounding and
    lies within 2^-41 MHz of 0.2.  [get_channel_spacing] returns 5.0 for
    UMTS 2100, which is neither step. *)
Theorem umts_step_near_declared (arfcn : Z) :
  10562 ≤ arfcn ≤ 10686 →
  (uplink_of arfcn = linear_formula f1922_4 (Float.of_decimal 2 1) 10562 arfcn ∧
   uplink_of (arfcn + 1) = linear_formula f1922_4 (Float.of_decimal 2 1) 10562 (arfcn + 1) ∧
   downlink_of arfcn = linear_formula f2112_4 (Float.of_decimal 2 1) 10562 arfcn ∧
   downlink_of (arfcn + 1) = linear_formula f2112_4 (Float.of_decimal 2 1) 10562 (arfcn + 1)) ∧
  (Float.is_finite (uplink_step arfcn) = true ∧
   (Float.to_Q (uplink_step arfcn) ==
      Float.to_Q (uplink_of (arfcn + 1)) - Float.to_Q (uplink_of arfcn))%Q ∧
   (Qabs (Float.to_Q (uplink_step arfcn) - (1 # 5)) <= 2 ^ (-41))%Q) ∧
  (Float.is_finite (downlink_step arfcn) = true ∧
   (Float.to_Q (downlink_step arfcn) ==
      Float.to_Q (downlink_of (arfcn + 1)) - Float.to_Q (downlink_of arfcn))%Q ∧
   (Qabs (Float.to_Q (downlink_step arfcn) - (1 # 5)) <= 2 ^ (-41))%Q) ∧
  get_channel_spacing cls "UMTS 2100" = Float.of_decimal 50 1 ∧
  uplink_step arfcn ≠ get_channel_spacing cls "UMTS 2100" ∧
  downlink_step arfcn ≠ get_channel_spacing cls "UMTS 2100".
Proof.
  intros Hr.
  assert (Hall : all_between 10562 10686 (λ a,
            near (uplink_step a) (1 # 5) (2 ^ (-41)) &&
            exact_difference (uplink_step a) (uplink_of (a + 1)) (uplink_of a) &&
            near (downlink_step a) (1 # 5) (2 ^ (-41)) &&
            exact_difference (downlink_step a) (downlink_of (a + 1)) (downlink_of a) &&
            negb (same_float (uplink_step a) (get_channel_spacing cls "UMTS 2100")) &&
            negb (same_float (downlink_step a) (get_channel_spacing cls "UMTS 2100")))
          = true) by (vm_compute; reflexivity).
  pose proof (all_between_spec _ _ _ Hall arfcn Hr) as Hc. cbv beta in Hc.
  apply andb_prop in Hc as [Hc Hds]. apply andb_prop in Hc as [Hc Hus].
  apply andb_prop in Hc as [Hc Hde]. apply andb_prop in Hc as [Hc Hdn].
  apply andb_prop in Hc as [Hun Hue].
  apply near_spec in Hun as [Huf Hun]. apply near_spec in Hdn as [Hdf Hdn].
  apply exact_difference_spec in Hue. apply exact_difference_spec in Hde.
  apply negb_true_iff, same_float_neq in Hus. apply negb_true_iff, same_float_neq in Hds.
  assert (Hformula : ∀ a, 10562 ≤ a ≤ 10687 →
            uplink_of a = linear_formula f1922_4 (Float.of_decimal 2 1) 10562 a ∧
            downlink_of a = linear_formula f2112_4 (Float.of_decimal 2 1) 10562 a).
  { intros a Ha. unfold uplink_of, downlink_of.
    rewrite calculate_frequencies_umts2100, calculate_umts2100_range by lia.
    split; reflexivity. }
  destruct (Hformula arfcn ltac:(lia)) as [Hu0 Hd0].
  destruct (Hformula (arfcn + 1) ltac:(lia)) as [Hu1 Hd1].
  split_and!; try assumption. vm_compute. reflexivity.
Qed.

Lemma umts_step_near_declared_witness :
  (Qabs (Float.to_Q (uplink_step 10600) - (1 # 5)) <= 2 ^ (-41))%Q.
Proof.
  refine (proj2 (proj2 (proj1 (proj2 (umts_step_near_declared 10600 _))))). lia.
Defined.

(** C10 as stated fails: channel 10563 is a UMTS 2100 channel whose duplex
    separation is not 190.0, and differs from that of channel 10562. *)
Lemma umts_separation_not_constant :
  in_standard cls "UMTS 2100" 10563 ∧
  duplex_separation 10563 ≠ Float.of_decimal 1900 1 ∧
  duplex_separation 10563 ≠ duplex_separation 10562 ∧
  ¬ (Float.to_Q (downlink_of 10563) - Float.to_Q (uplink_of 10563) == 190)%Q.
Proof.
  split; [|split; [|split]].
  - exists 10562, 10687. split; [|lia]. apply elem_of_sub_ranges.
    exists [(10562, 10687)]. split; [|left]. do 2 right. left.
  - apply same_float_neq. vm_compute. reflexivity.
  - apply same_float_neq. vm_compute. reflexivity.
  - intros Heq. apply Qeq_bool_iff in Heq. vm_compute in Heq. discriminate.
Qed.

(** C10, amended. For every channel inside a declared range the duplex
    separation downlink - uplink is computed without rounding and is, for
    GSM 900, GSM 1800 and LTE 1800, exactly the constant of the standard
    (45.0, 95.0 and 95.0 MHz) whatever the channel; for UMTS 2100 it is
    within 2^-42 MHz of 190.0. *)
Theorem duplex_separation_by_standard (b : band) (arfcn : Z) :
  b ∈ declared_bands →
  band_start b ≤ arfcn ≤ band_stop b →
  Float.is_finite (duplex_separation arfcn) = true ∧
  (Float.to_Q (duplex_separation arfcn) ==
     Float.to_Q (downlink_of arfcn) - Float.to_Q (uplink_of arfcn))%Q ∧
  (Qabs (Float.to_Q (duplex_separation arfcn) -
         Float.to_Q (declared_separation (band_name b))) <= 2 ^ (-42))%Q ∧
  (band_name b ≠ "UMTS 2100" →
     duplex_separation arfcn = declared_separation (band_name b)).
Proof.
  intros Hb Hr.
  set (check := λ (network : string) (a : Z),
         near (duplex_separation a) (Float.to_Q (declared_separation network)) (2 ^ (-42)) &&
         exact_difference (duplex_separation a) (downlink_of a) (uplink_of a) &&
         (String.eqb network "UMTS 2100" ||
          same_float (duplex_separation a) (declared_separation network))).
  assert (Hc : check (band_name b) arfcn = true).
  { revert Hr. pattern b. revert b Hb. apply band_cases.
    repeat apply Forall_cons_2; [..|apply Forall_nil_2];
      cbn [band_start band_stop band_name]; revert arfcn;
      match goal with
      | |- ∀ a, ?lo ≤ a ≤ ?hi → _ => by_enumeration lo hi
      end. }
  unfold check in Hc.
  apply andb_prop in Hc as [Hc Hsame]. apply andb_prop in Hc as [Hnear Hexact].
  apply near_spec in Hnear as [Hfin Hnear]. apply exact_difference_spec in Hexact.
  repeat split; try assumption.
  intros Hne. apply orb_prop in Hsame as [Heq|Hsame].
  - apply String.eqb_eq in Heq. contradiction.
  - apply same_float_eq, Hsame.
Qed.

Lemma duplex_separation_by_standard_witness :
  duplex_separation 1500 = Float.of_decimal 950 1.
Proof.
  refine (proj2 (proj2 (proj2 (duplex_separation_by_standard
    {| band_name := "GSM 1800"; band_start := 1024; band_stop := 1885;
       uplink_tenths := 17100; downlink_tenths := 18050; step_tenths := 2 |}
    1500 _ _))) _).
  - do 3 right. left.
  - simpl. lia.
  - simpl. discriminate.
Defined.

(** ** Exact values and the display

    The floats returned for a declared channel are within 2^-41 MHz of the
    values of the formula in exact arithmetic, and the display, which
    rounds to three decimals, prints those exact values. *)

Lemma frequencies_near_exact (b : band) (arfcn : Z) :
  b ∈ declared_bands →
  band_start b ≤ arfcn ≤ band_stop b →
  (Qabs (Float.to_Q (uplink_of arfcn) - (exact_uplink_tenths b arfcn # 10)) <= 2 ^ (-41))%Q ∧
  (Qabs (Float.to_Q (downlink_of arfcn) - (exact_downlink_tenths b arfcn # 10)) <= 2 ^ (-41))%Q ∧
  format_3f (uplink_of arfcn) = format_tenths (exact_uplink_tenths b arfcn) ∧
  format_3f (downlink_of arfcn) = format_tenths (exact_downlink_tenths b arfcn).
Proof.
  intros Hb Hr.
  set (check := λ (b : band) (a : Z),
         near (uplink_of a) (exact_uplink_tenths b a # 10) (2 ^ (-41)) &&
         near (downlink_of a) (exact_downlink_tenths b a # 10) (2 ^ (-41)) &&
         String.eqb (format_3f (uplink_of a)) (format_tenths (exact_uplink_tenths b a)) &&
         String.eqb (format_3f (downlink_of a)) (format_tenths (exact_downlink_tenths b a))).
  assert (Hc : check b arfcn = true).
  { revert Hr. pattern b. revert b Hb. apply band_cases.
    repeat apply Forall_cons_2; [..|apply Forall_nil_2];
      cbn [band_start band_stop]; revert arfcn;
      match goal with
      | |- ∀ a, ?lo ≤ a ≤ ?hi → _ => by_enumeration lo hi
      end. }
  unfold check in Hc.
  apply andb_prop in Hc as [Hc Hsd]. apply andb_prop in Hc as [Hc Hsu].
  apply andb_prop in Hc as [Hnu Hnd].
  apply near_spec in Hnu as [_ Hnu]. apply near_spec in Hnd as [_ Hnd].
  apply String.eqb_eq in Hsu. apply String.eqb_eq in Hsd.
  split_and!; assumption.
Qed.

(** ** Disjoint ranges and the order of the scan *)

Lemma in_standard_detect (network : string) (arfcn : Z) :
  in_standard cls network arfcn ↔ detect_network cls arfcn = Some network.
Proof.
  split.
  - intros (start & stop & Hin & Hr). rewrite detect_network_cls.
    cbn in Hin. repeat (apply elem_of_cons in Hin as [[= -> -> ->]|Hin]);
      [..|apply elem_of_nil in Hin as []];
      repeat case_decide; try reflexivity; lia.
  - intros Hd. apply in_standard_scan, detect_network_in_Some, Hd.
Qed.

Lemma standards_disjoint (arfcn : Z) (n1 n2 : string) :
  in_standard cls n1 arfcn → in_standard cls n2 arfcn → n1 = n2.
Proof. rewrite !in_standard_detect. congruence. Qed.

Lemma detect_network_same_ranges (items : list (string * list (Z * Z))) (arfcn : Z) :
  (∀ t, t ∈ sub_ranges items ↔ t ∈ sub_ranges (NETWORK_RANGES cls)) →
  detect_network_in items arfcn = detect_network cls arfcn.
Proof.
  intros Hsame. destruct (detect_network_in items arfcn) as [network|] eqn:Hd.
  - symmetry. apply in_standard_detect.
    apply detect_network_in_Some in Hd as (ranges & Hitem & (a & b & Hab & Hr)%in_ranges_true).
    exists a, b. split; [|exact Hr]. apply Hsame, elem_of_sub_ranges.
    exists ranges. split; assumption.
  - symmetry. apply not_declared_undetected.
    intros (network & a & b & Hin & Hr).
    apply Hsame, elem_of_sub_ranges in Hin as (ranges & Hitem & Hab).
    rewrite detect_network_in_None in Hd.
    assert (in_ranges ranges arfcn = true) as Ht
      by (apply in_ranges_true; exists a, b; split; assumption).
    rewrite (Hd _ _ Hitem) in Ht. discriminate.
Qed.

Lemma sub_ranges_permutation (items items' : list (string * list (Z * Z))) :
  items ≡ₚ items' → ∀ t, t ∈ sub_ranges items ↔ t ∈ sub_ranges items'.
Proof.
  intros Hp [[n a] b]. rewrite !elem_of_sub_ranges.
  split; intros (ranges & Hitem & Hab); exists ranges; split; try assumption.
  - rewrite <- Hp. exact Hitem.
  - rewrite Hp. exact Hitem.
Qed.

(** C6. No channel lies in declared ranges of two different standards, so
    the answer of [detect_network] is the one standard containing the
    channel, and it does not depend on the order of the scan: any table with
    the same sub-ranges, and in particular any reordering of the items of
    [NETWORK_RANGES], gives the same answer. *)
Theorem ranges_disjoint :
  (∀ (arfcn : Z) (n1 n2 : string),
     in_standard cls n1 arfcn → in_standard cls n2 arfcn → n1 = n2) ∧
  (∀ (arfcn : Z) (network : string),
     detect_network cls arfcn = Some network ↔ in_standard cls network arfcn) ∧
  (∀ (items : list (string * list (Z * Z))) (arfcn : Z),
     (∀ t, t ∈ sub_ranges items ↔ t ∈ sub_ranges (NETWORK_RANGES cls)) →
     detect_network_in items arfcn = detect_network cls arfcn) ∧
  (∀ (items : list (string * list (Z * Z))) (arfcn : Z),
     items ≡ₚ NETWORK_RANGES cls →
     detect_network_in items arfcn = detect_network cls arfcn).
Proof.
  split_and!.
  - apply standards_disjoint.
  - intros arfcn network. symmetry. apply in_standard_detect.
  - apply detect_network_same_ranges.
  - intros items arfcn Hp. apply detect_network_same_ranges, sub_ranges_permutation, Hp.
Qed.

(** ** The two lookups *)

Lemma unknown_standard (network : string) :
  network ∉ ["GSM 900"; "GSM 1800"; "UMTS 2100"; "LTE 1800"] →
  "GSM 900" ≠ network ∧ "GSM 1800" ≠ network ∧ "UMTS 2100" ≠ network ∧
  "LTE 1800" ≠ network.
Proof.
  rewrite !not_elem_of_cons. intros (? & ? & ? & ? & _). split_and!; congruence.
Qed.

(** C7. [get_channel_spacing] returns the constant of [CHANNEL_SPACING] for
    each of the four standards (0.2, 0.2, 5.0 and 0.1) and 0.0 for every
    other name. *)
Theorem get_channel_spacing_total :
  get_channel_spacing cls "GSM 900" = Float.of_decimal 2 1 ∧
  get_channel_spacing cls "GSM 1800" = Float.of_decimal 2 1 ∧
  get_channel_spacing cls "UMTS 2100" = Float.of_decimal 50 1 ∧
  get_channel_spacing cls "LTE 1800" = Float.of_decimal 1 1 ∧
  (∀ network : string,
     network ∉ ["GSM 900"; "GSM 1800"; "UMTS 2100"; "LTE 1800"] →
     get_channel_spacing cls network = Float.of_decimal 0 1 ∧
     get_channel_spacing cls network = S754_zero false).
Proof.
  split_and!; [vm_compute; reflexivity..|].
  intros network (? & ? & ? & ?)%unknown_standard.
  unfold get_channel_spacing. cbn [CHANNEL_SPACING cls].
  rewrite !lookup_insert_ne, lookup_empty by assumption.
  split; vm_compute; reflexivity.
Qed.

(** C8. [get_network_capabilities] returns the record of
    [NETWORK_CAPABILITIES] for each of the four standards and the empty
    dictionary for every other name. *)
Theorem get_network_capabilities_total :
  get_network_capabilities cls "GSM 900" =
    caps "2G" "115 Kbps (GPRS), 384 Kbps (EDGE)" "Voice calls, SMS, Basic data"
         "GMSK, 8PSK (EDGE)" ∧
  get_network_capabilities cls "GSM 1800" =
    caps "2G" "115 Kbps (GPRS), 384 Kbps (EDGE)" "Voice calls, SMS, Basic data"
         "GMSK, 8PSK (EDGE)" ∧
  get_network_capabilities cls "UMTS 2100" =
    caps "3G" "42 Mbps (DC-HSPA+)" "Video calls, High-speed data, Enhanced security"
         "QPSK, 16QAM" ∧
  get_network_capabilities cls "LTE 1800" =
    caps "4G" "Up to 150 Mbps" "High-speed data, VoLTE, Low latency"
         "QPSK, 16QAM, 64QAM" ∧
  (∀ network : string,
     network ∉ ["GSM 900"; "GSM 1800"; "UMTS 2100"; "LTE 1800"] →
     get_network_capabilities cls network = ∅).
Proof.
  unfold get_network_capabilities. cbn [NETWORK_CAPABILITIES cls].
  split_and!;
    [rewrite ?lookup_insert_ne by discriminate; rewrite lookup_insert_eq; reflexivity..|].
  intros network (? & ? & ? & ?)%unknown_standard.
  rewrite !lookup_insert_ne, lookup_empty by assumption. reflexivity.
Qed.

(** ** The centre frequency

    Doubling a binary64 value and halving the sum, through the rounding
    functions of the format. *)

Lemma fexp_64 (x : Z) : fexp Float.prec Float.emax x = Z.max (x - 53) (-1074).
Proof. reflexivity. Qed.

Lemma canonical_cases (m : positive) (e : Z) :
  canonical_mantissa Float.prec Float.emax m e = true →
  (Z.pos (digits2_pos m) = 53 ∧ -1074 ≤ e) ∨ (Z.pos (digits2_pos m) < 53 ∧ e = -1074).
Proof.
  unfold canonical_mantissa. rewrite fexp_64. intros ?%Z.eqb_eq. lia.
Qed.

Lemma shr_fexp_exact_0 (m : positive) (e : Z) :
  canonical_mantissa Float.prec Float.emax m e = true →
  shr_fexp Float.prec Float.emax (Z.pos m) e loc_Exact
  = ({| shr_m := Z.pos m; shr_r := false; shr_s := false |}, e).
Proof.
  unfold canonical_mantissa, shr_fexp. intros Hc%Z.eqb_eq.
  cbn [Zdigits2]. rewrite Hc, Z.sub_diag. reflexivity.
Qed.

Lemma binary_round_aux_canonical (s : bool) (m : positive) (e : Z) :
  canonical_mantissa Float.prec Float.emax m e = true →
  binary_round_aux Float.prec Float.emax s (Z.pos m) e loc_Exact
  = if e <=? 971 then S754_finite s m e else S754_infinity s.
Proof.
  intros Hc. unfold binary_round_aux. rewrite (shr_fexp_exact_0 m e Hc).
  cbn [shr_m loc_of_shr_record round_nearest_even].
  rewrite (shr_fexp_exact_0 m e Hc). reflexivity.
Qed.

Lemma shr_fexp_exact_1 (m : positive) (e : Z) :
  Z.pos (digits2_pos m) = 53 → -1074 ≤ e →
  shr_fexp Float.prec Float.emax (Z.pos m~0) e loc_Exact
  = ({| shr_m := Z.pos m; shr_r := false; shr_s := false |}, e + 1).
Proof.
  intros Hd He. unfold shr_fexp. cbn [Zdigits2 digits2_pos].
  rewrite Pos2Z.inj_succ, Hd, fexp_64.
  replace (Z.max (Z.succ 53 + e - 53) (-1074) - e) with 1 by lia.
  reflexivity.
Qed.

Lemma binary_round_aux_double (s : bool) (m : positive) (e : Z) :
  Z.pos (digits2_pos m) = 53 → -1074 ≤ e →
  binary_round_aux Float.prec Float.emax s (Z.pos m~0) e loc_Exact
  = if e + 1 <=? 971 then S754_finite s m (e + 1) else S754_infinity s.
Proof.
  intros Hd He. unfold binary_round_aux. rewrite (shr_fexp_exact_1 m e Hd He).
  cbn [shr_m loc_of_shr_record round_nearest_even].
  rewrite shr_fexp_exact_0; [reflexivity|].
  unfold canonical_mantissa. rewrite Hd, fexp_64. apply Z.eqb_eq. lia.
Qed.

Lemma add_self (s : bool) (m : positive) (e : Z) :
  canonical_mantissa Float.prec Float.emax m e = true →
  Float.add (S754_finite s m e) (S754_finite s m e)
  = if Z.pos (digits2_pos m) =? 53
    then if e + 1 <=? 971 then S754_finite s m (e + 1) else S754_infinity s
    else S754_finite s m~0 e.
Proof.
  intros Hc. unfold Float.add, SFadd. rewrite Z.min_id.
  unfold shl_align at 1 2. rewrite Z.sub_diag. cbn [fst].
  assert (Hsum : cond_Zopp s (Z.pos m) + cond_Zopp s (Z.pos m) = cond_Zopp s (Z.pos m~0))
 by (destruct s; cbn [cond_Zopp]; lia).
  rewrite Hsum.
  assert (Hnorm : binary_normalize Float.prec Float.emax (cond_Zopp s (Z.pos m~0)) e false
                  = binary_round Float.prec Float.emax s m~0 e)
    by (destruct s; reflexivity).
  rewrite Hnorm. unfold binary_round, shl_align. cbn [digits2_pos].
  rewrite Pos2Z.inj_succ, fexp_64.
  destruct (canonical_cases m e Hc) as [[Hd He]|[Hd He]].
  - rewrite Hd. cbn [Z.eqb Pos.eqb].
    replace (Z.max (Z.succ 53 + e - 53) (-1074) - e) with 1 by lia.
    apply binary_round_aux_double; assumption.
  - rewrite (proj2 (Z.eqb_neq _ _)) by lia.
    replace (Z.max (Z.succ (Z.pos (digits2_pos m)) + e - 53) (-1074) - e) with 0 by lia.
    rewrite binary_round_aux_canonical.
    + subst e. reflexivity.
    + unfold canonical_mantissa. cbn [digits2_pos]. rewrite Pos2Z.inj_succ, fexp_64.
      apply Z.eqb_eq. lia.
Qed.

Lemma div_eucl_exact (a b : Z) : 0 < b → Z.div_eucl (a * b) b = (a, 0).
Proof.
  intros Hb. pose proof (Z.div_mul a b ltac:(lia)) as Hq.
  pose proof (Z.mod_mul a b ltac:(lia)) as Hr.
  unfold Z.div, Z.modulo in Hq, Hr. destruct (Z.div_eucl (a * b) b) as [q r].
  subst q r. reflexivity.
Qed.

Lemma of_Z_2 : Float.of_Z 2 = S754_finite false 4503599627370496 (-51).
Proof. reflexivity. Qed.

Lemma div_two_step (s : bool) (m q : positive) (e e' shift : Z) :
  e' = Z.min (Z.max (Z.pos (digits2_pos m) + e - 2 - 53) (-1074)) (e + 51) →
  shift = e + 51 - e' →
  0 < shift →
  Z.pos m * 2 ^ shift = Z.pos q * 4503599627370496 →
  Float.div (S754_finite s m e) (Float.of_Z 2)
  = binary_round_aux Float.prec Float.emax s (Z.pos q) e' loc_Exact.
Proof.
  intros He' Hshift Hpos Hq. rewrite of_Z_2. unfold Float.div, SFdiv, SFdiv_core_binary.
  cbn [Zdigits2]. change (Z.pos (digits2_pos 4503599627370496)) with 53.
  rewrite fexp_64.
  replace (Z.min (Z.max (Z.pos (digits2_pos m) + e - (53 + -51) - 53) (-1074)) (e - -51))
    with e' by lia.
  replace (e - -51 - e') with shift by lia.
  destruct shift as [|p|p]; try lia.
  rewrite Z.shiftl_mul_pow2 by lia. rewrite Hq, div_eucl_exact by lia.
  rewrite xorb_false_r. reflexivity.
Qed.

Lemma div_two_normal (s : bool) (m : positive) (e : Z) :
  Z.pos (digits2_pos m) = 53 → -1074 ≤ e → e ≤ 971 →
  Float.div (S754_finite s m (e + 1)) (Float.of_Z 2) = S754_finite s m e.
Proof.
  intros Hd Hlo Hhi. destruct (decide (e = -1074)) as [->|Hne].
  - rewrite (div_two_step s m m (-1074 + 1) (-1074) 52) by (rewrite ?Hd; lia).
    rewrite binary_round_aux_canonical; [reflexivity|].
    unfold canonical_mantissa. rewrite Hd. reflexivity.
  - rewrite (div_two_step s m m~0 (e + 1) (e - 1) 53) by (rewrite ?Hd; lia).
    rewrite binary_round_aux_double by lia.
    replace (e - 1 + 1) with e by lia.
    rewrite (proj2 (Z.leb_le _ _)) by lia. reflexivity.
Qed.

Lemma div_two_subnormal (s : bool) (m : positive) :
  Z.pos (digits2_pos m) < 53 →
  Float.div (S754_finite s m~0 (-1074)) (Float.of_Z 2) = S754_finite s m (-1074).
Proof.
  intros Hd.
  rewrite (div_two_step s m~0 m (-1074) (-1074) 51);
    [|cbn [digits2_pos]; rewrite ?Pos2Z.inj_succ; lia..].
  rewrite binary_round_aux_canonical; [reflexivity|].
  unfold canonical_mantissa. rewrite fexp_64. apply Z.eqb_eq. lia.
Qed.

(** The mean of a float with itself is that float when the sum does not
    overflow. *)
Lemma mean_of_equal (u : float) :
  Float.valid u = true →
  Float.is_finite (Float.add u u) = true →
  Float.div (Float.add u u) (Float.of_Z 2) = u.
Proof.
  destruct u as [s|s| |s m e]; try discriminate.
  - intros _ _. destruct s; reflexivity.
  - destruct s; discriminate.
  - unfold Float.valid, valid_binary, bounded. intros [Hc He%Z.leb_le]%andb_prop.
    rewrite (add_self s m e Hc).
    destruct (canonical_cases m e Hc) as [[Hd Hlo]|[Hd ->]].
    + rewrite Hd. cbn [Z.eqb Pos.eqb].
      destruct (Z.leb_spec (e + 1) 971); [|discriminate].
      intros _. apply div_two_normal; lia.
    + rewrite (proj2 (Z.eqb_neq _ _)) by lia. intros _. apply div_two_subnormal, Hd.
Qed.

Lemma mean_of_equal_overflow (u : float) :
  Float.valid u = true →
  Float.is_finite u = true →
  Float.is_finite (Float.add u u) = false →
  ∃ s, Float.div (Float.add u u) (Float.of_Z 2) = S754_infinity s.
Proof.
  destruct u as [s|s| |s m e]; try discriminate.
  - destruct s; discriminate.
  - unfold Float.valid, valid_binary, bounded. intros [Hc He%Z.leb_le]%andb_prop _.
    rewrite (add_self s m e Hc).
    destruct (Z.pos (digits2_pos m) =? 53); [|discriminate].
    destruct (e + 1 <=? 971); [discriminate|].
    intros _. exists s. destruct s; reflexivity.
Qed.

(** *** The magnitudes whose double overflows *)

Lemma two_pow_1023_value : Float.of_Z (2 ^ 1023) = Float.two_pow_1023.
Proof. vm_compute. reflexivity. Qed.

Lemma digits2_pos_lower (m : positive) : 2 ^ (Z.pos (digits2_pos m) - 1) ≤ Z.pos m.
Proof.
  induction m as [p IH|p IH|]; cbn [digits2_pos]; [| |reflexivity].
  all: rewrite Pos2Z.inj_succ;
    replace (Z.succ (Z.pos (digits2_pos p)) - 1) with (Z.succ (Z.pos (digits2_pos p) - 1)) by lia;
    rewrite Z.pow_succ_r by lia; lia.
Qed.

Lemma below_two_pow_1023 (s : bool) (m : positive) (e : Z) :
  Float.valid (S754_finite s m e) = true →
  Float.ltb (Float.abs (S754_finite s m e)) Float.two_pow_1023 = (e <? 971).
Proof.
  unfold Float.valid, valid_binary, bounded. intros [Hc He%Z.leb_le]%andb_prop.
  change (Float.emax - Float.prec) with 971 in He.
  unfold Float.two_pow_1023, Float.ltb, Float.abs, SFltb, SFabs, SFcompare.
  destruct (Z.ltb_spec e 971) as [Hlt|Hge].
  - rewrite (proj2 (Z.compare_lt_iff e 971)) by lia. reflexivity.
  - assert (e = 971) as -> by lia. rewrite Z.compare_refl.
    destruct (canonical_cases m 971 Hc) as [[Hd _]|[_ ?]]; [|lia].
    pose proof (digits2_pos_lower m) as Hm. rewrite Hd in Hm.
    change (2 ^ (53 - 1)) with (Z.pos 4503599627370496) in Hm.
    rewrite Pos.compare_cont_spec. cbn [Pos.switch_Eq].
    destruct (Pos.compare_spec m 4503599627370496) as [?|Hlt|?]; try reflexivity.
    apply Pos2Z.pos_lt_pos in Hlt. lia.
Qed.

(** For a finite float, [u + u] is finite exactly when [abs u < 2.0 ** 1023]. *)
Lemma double_finite_iff (u : float) :
  Float.valid u = true →
  Float.is_finite u = true →
  Float.is_finite (Float.add u u) = Float.ltb (Float.abs u) Float.two_pow_1023.
Proof.
  destruct u as [s|s| |s m e]; try discriminate.
  - intros _ _. destruct s; reflexivity.
  - intros Hv _. rewrite (below_two_pow_1023 s m e Hv).
    unfold Float.valid, valid_binary, bounded in Hv.
    apply andb_prop in Hv as [Hc He%Z.leb_le].
    change (Float.emax - Float.prec) with 971 in He.
    rewrite (add_self s m e Hc).
    destruct (canonical_cases m e Hc) as [[Hd Hlo]|[Hd ->]].
    + rewrite Hd. cbn [Z.eqb Pos.eqb].
      destruct (Z.leb_spec (e + 1) 971), (Z.ltb_spec e 971); try lia; reflexivity.
    + rewrite (proj2 (Z.eqb_neq _ _)) by lia. reflexivity.
Qed.

Lemma below_two_pow_1023_finite (u : float) :
  Float.ltb (Float.abs u) Float.two_pow_1023 = true → Float.is_finite u = true.
Proof. destruct u as [s|s| |s m e]; intros Hlt; try reflexivity; discriminate Hlt. Qed.

(** C5 as stated fails: the largest finite float is a finite input whose
    centre with itself is an infinity, not the input. *)
Lemma center_of_max_float :
  let u := SFmax_float Float.prec Float.emax in
  Float.valid u = true ∧ Float.is_finite u = true ∧
  calculate_center_frequency u u = Ok (S754_infinity false) ∧
  calculate_center_frequency u u ≠ Ok u.
Proof.
  split_and!; try (vm_compute; reflexivity).
  vm_compute. discriminate.
Qed.

(** C5, amended. For all floats [u] and [d], [calculate_center_frequency]
    returns, without raising, the binary64 value [(u + d) / 2]; when
    [u = d] and [abs u < 2.0 ** 1023] the result is [u]; for a finite
    [u = d] of larger magnitude the sum overflows and the result is an
    infinity. *)
Theorem calculate_center_frequency_mean (u d : float) :
  calculate_center_frequency u d = Ok (Float.div (Float.add u d) (Float.of_Z 2)) ∧
  (Float.valid u = true → u = d →
     Float.ltb (Float.abs u) Float.two_pow_1023 = true →
     calculate_center_frequency u d = Ok u) ∧
  (Float.valid u = true → u = d → Float.is_finite u = true →
     Float.ltb (Float.abs u) Float.two_pow_1023 = false →
     ∃ s, calculate_center_frequency u d = Ok (S754_infinity s)).
Proof.
  assert (Hmean : calculate_center_frequency u d
                  = Ok (Float.div (Float.add u d) (Float.of_Z 2))) by reflexivity.
  split_and!.
  - exact Hmean.
  - intros Hv <- Hlt. rewrite Hmean. f_equal. apply mean_of_equal; [exact Hv|].
    rewrite double_finite_iff; [exact Hlt | exact Hv | apply below_two_pow_1023_finite, Hlt].
  - intros Hv <- Hu Hge. rewrite Hmean.
    rewrite <- (double_finite_iff u Hv Hu) in Hge.
    destruct (mean_of_equal_overflow u Hv Hu Hge) as [s Hs]. exists s. rewrite Hs. reflexivity.
Qed.

Lemma calculate_center_frequency_mean_witness :
  calculate_center_frequency (Float.of_decimal 9027 1) (Float.of_decimal 9027 1)
  = Ok (Float.of_decimal 9027 1).
Proof.
  refine (proj1 (proj2 (calculate_center_frequency_mean
            (Float.of_decimal 9027 1) (Float.of_decimal 9027 1))) _ _ _);
    vm_compute; reflexivity.
Defined.

(** * Further properties *)

(** ** More on the range scan *)


(** X1. For any table, the first item in the order of the table whose
    ranges contain the channel names the result of [detect_network],
    whatever follows it, overlapping or not. *)
Theorem detect_network_first_match (before after : list (string * list (Z * Z)))
    (network : string) (ranges : list (Z * Z)) (arfcn : Z) :
  (∀ n rs, (n, rs) ∈ before → in_ranges rs arfcn = false) →
  in_ranges ranges arfcn = true →
  detect_network_in (before ++ (network, ranges) :: after) arfcn = Some network.
Proof.
  intros Hbefore Hin. induction before as [|[n rs] before IH]; simpl.
  - rewrite Hin. reflexivity.
  - rewrite (Hbefore n rs) by left. apply IH.
    intros n' rs' Hitem. apply (Hbefore n' rs'). right. exact Hitem.
Qed.

Lemma detect_network_first_match_witness :
  detect_network_in [("A", [(1, 5)]); ("B", [(3, 9)]); ("C", [(0, 9)])] 4 = Some "A" ∧
  detect_network_in [("A", [(1, 5)]); ("B", [(3, 9)]); ("C", [(0, 9)])] 7 = Some "B".
Proof.
  split.
  - refine (detect_network_first_match [] [("B", [(3, 9)]); ("C", [(0, 9)])]
              "A" [(1, 5)] 4 _ _).
    + intros n rs []%elem_of_nil.
    + reflexivity.
  - refine (detect_network_first_match [("A", [(1, 5)])] [("C", [(0, 9)])]
              "B" [(3, 9)] 7 _ _).
    + intros n rs [= -> ->]%list_elem_of_singleton. reflexivity.
    + reflexivity.
Defined.

(** X2. For any table, [detect_network] answers [None] exactly when no
    range of the table contains the channel, and a name it answers is the
    name of a standard with a range that contains the channel. *)
Theorem detect_network_finds (st : NetworkCalculator) (arfcn : Z) :
  (detect_network st arfcn = None ↔ ¬ declared st arfcn) ∧
  (∀ network, detect_network st arfcn = Some network → in_standard st network arfcn).
Proof.
  split.
  - rewrite detect_network_declared. destruct (detect_network st arfcn) as [n|].
    + split; [discriminate|]. intros []. eexists; reflexivity.
    + split; [intros _ [? [=]]|reflexivity].
  - intros network Hd. apply in_standard_scan, detect_network_in_Some, Hd.
Qed.

(** ** Channels with the same frequencies *)





(** X4. LTE 1800 and GSM 1800 share their anchors: for k from 0 to 39 the
    LTE channel [300 + 2k] and the GSM 1800 channel [512 + k] return the
    same two floats, under their two names. *)
Theorem lte_even_channels_are_gsm1800 (k : Z) :
  0 ≤ k ≤ 39 →
  ∃ uplink downlink,
    calculate_frequencies cls (300 + 2 * k) = Ok (uplink, downlink, "LTE 1800") ∧
    calculate_frequencies cls (512 + k) = Ok (uplink, downlink, "GSM 1800").
Proof.
  intros Hk.
  assert (Hc : same_frequencies_check k = true) by (revert k Hk; by_enumeration 0 39).
  unfold same_frequencies_check in Hc.
  destruct (calculate_frequencies cls (300 + 2 * k)) as [[[u1 d1] n1]|]; [|discriminate].
  destruct (calculate_frequencies cls (512 + k)) as [[[u2 d2] n2]|]; [|discriminate].
  apply andb_prop in Hc as [Hc Hn2%String.eqb_eq]. apply andb_prop in Hc as [Hc Hn1%String.eqb_eq].
  apply andb_prop in Hc as [Hu%same_float_eq Hd%same_float_eq]. subst.
  eauto.
Qed.

Lemma lte_even_channels_are_gsm1800_witness :
  ∃ uplink downlink,
    calculate_frequencies cls (300 + 2 * 39) = Ok (uplink, downlink, "LTE 1800") ∧
    calculate_frequencies cls (512 + 39) = Ok (uplink, downlink, "GSM 1800").
Proof. refine (lte_even_channels_are_gsm1800 39 _). lia. Defined.

(** ** Frequencies grow with the channel *)






(** ** What a caller gets back *)

Lemma calculate_frequencies_cases (arfcn : Z) :
  (∃ b, b ∈ declared_bands ∧ band_start b ≤ arfcn ≤ band_stop b ∧
        calculate_frequencies cls arfcn =
          Ok (linear_formula (uplink_anchor b) (band_step b) (band_start b) arfcn,
              linear_formula (downlink_anchor b) (band_step b) (band_start b) arfcn,
              band_name b)) ∨
  (¬ declared cls arfcn ∧ detect_network cls arfcn = None).
Proof.
  destruct (detect_network cls arfcn) as [network|] eqn:Hd.
  - left. assert (Hdecl : declared cls arfcn).
    { apply detect_network_declared. rewrite Hd. eexists; reflexivity. }
    apply declared_band in Hdecl as (b & Hb & Hr). exists b.
    split; [exact Hb|]. split; [exact Hr|]. apply calculate_frequencies_band; assumption.
  - right. split.
    + rewrite detect_network_declared, Hd. intros [? [=]].
    + reflexivity.
Qed.

Lemma band_name_known (b : band) :
  b ∈ declared_bands →
  band_name b ∈ ["GSM 900"; "GSM 1800"; "UMTS 2100"; "LTE 1800"].
Proof.
  intros Hb. pattern b. revert b Hb. apply band_cases.
  repeat apply Forall_cons_2; [..|apply Forall_nil_2]; cbn [band_name];
    repeat first [left | right].
Qed.

(** X6. The name [calculate_frequencies] returns is the detected standard
    and a key of both lookup tables, with all four capability fields: the
    lookups that follow it in the window never fall to their defaults. *)
Theorem returned_name_is_key (arfcn : Z) (uplink downlink : float) (network : string) :
  calculate_frequencies cls arfcn = Ok (uplink, downlink, network) →
  detect_network cls arfcn = Some network ∧
  is_Some (CHANNEL_SPACING cls !! network) ∧
  ∃ capabilities,
    NETWORK_CAPABILITIES cls !! network = Some capabilities ∧
    get_network_capabilities cls network = capabilities ∧
    Forall (λ key, is_Some (capabilities !! key))
           ["Technology"; "Max Data Rate"; "Features"; "Modulation"].
Proof.
  intros Hok.
  destruct (calculate_frequencies_cases arfcn) as [(b & Hb & Hr & Hcalc)|[_ Hnone]];
    [rewrite Hcalc in Hok
    |rewrite (calculate_frequencies_undetected cls arfcn Hnone) in Hok; discriminate].
  injection Hok as _ _ <-.
  split.
  - apply in_standard_detect, band_in_standard; assumption.
  - apply band_name_known in Hb. unfold get_network_capabilities.
    cbn [CHANNEL_SPACING NETWORK_CAPABILITIES cls].
    repeat (apply elem_of_cons in Hb as [->|Hb]); [..|apply elem_of_nil in Hb as []].
    all: rewrite ?lookup_insert_ne by discriminate; rewrite !lookup_insert_eq.
    all: split; [eexists; reflexivity|].
    all: eexists; split; [reflexivity|]; split; [reflexivity|].
    all: unfold caps; repeat apply Forall_cons_2; [..|apply Forall_nil_2].
    all: rewrite ?lookup_insert_ne by discriminate; rewrite lookup_insert_eq.
    all: eexists; reflexivity.
Qed.

Lemma returned_name_is_key_witness :
  detect_network cls 300 = Some "LTE 1800" ∧ is_Some (CHANNEL_SPACING cls !! "LTE 1800").
Proof.
  destruct (returned_name_is_key 300 (Float.of_Z 1710) (Float.of_Z 1805) "LTE 1800")
    as (Hd & Hs & _).
  - vm_compute. reflexivity.
  - split; assumption.
Defined.

(** ** The static methods outside their ranges

    First the conversion of an [int] for mixed arithmetic: it is finite
    below 2^53 and raises from 2^1024 on. *)


Lemma digits2_pos_upper (m : positive) : Z.pos m < 2 ^ Z.pos (digits2_pos m).
Proof.
  induction m as [p IH|p IH|]; cbn [digits2_pos]; [| |reflexivity].
  all: rewrite Pos2Z.inj_succ, Z.pow_succ_r by lia; lia.
Qed.

Lemma digits2_pos_le (m : positive) (k : Z) :
  0 ≤ k → Z.pos m < 2 ^ k → Z.pos (digits2_pos m) ≤ k.
Proof.
  intros Hk Hm. pose proof (digits2_pos_lower m) as Hlo.
  destruct (Z.le_gt_cases (Z.pos (digits2_pos m)) k) as [?|Hgt]; [assumption|].
  assert (2 ^ k ≤ 2 ^ (Z.pos (digits2_pos m) - 1)) by (apply Z.pow_le_mono_r; lia).
  lia.
Qed.

Lemma digits2_pos_gt (m : positive) (k : Z) :
  0 ≤ k → 2 ^ k ≤ Z.pos m → k < Z.pos (digits2_pos m).
Proof.
  intros Hk Hm. pose proof (digits2_pos_upper m) as Hup.
  destruct (Z.lt_ge_cases k (Z.pos (digits2_pos m))) as [?|Hge]; [assumption|].
  assert (2 ^ Z.pos (digits2_pos m) ≤ 2 ^ k) by (apply Z.pow_le_mono_r; lia).
  lia.
Qed.

Lemma digits2_pos_shift (m k : positive) :
  digits2_pos (Pos.iter xO m k) = (digits2_pos m + k)%positive.
Proof.
  induction k as [|k IH] using Pos.peano_ind.
  - cbn. lia.
  - rewrite Pos.iter_succ. cbn [digits2_pos]. rewrite IH. lia.
Qed.

Lemma of_Z_exact_finite (n : Z) :
  Z.abs n < 2 ^ 53 → Float.is_finite (Float.of_Z n) = true.
Proof.
  intros Hn.
  assert (Hpos : ∀ (s : bool) (m : positive), Z.pos m < 2 ^ 53 →
            Float.is_finite (binary_round Float.prec Float.emax s m 0) = true).
  { intros s m Hm. pose proof (digits2_pos_le m 53 ltac:(lia) Hm) as Hd.
    unfold binary_round, shl_align. rewrite fexp_64.
    destruct (Z.max (Z.pos (digits2_pos m) + 0 - 53) (-1074) - 0) as [|k|k] eqn:Hshift; try lia.
    - rewrite binary_round_aux_canonical; [reflexivity|].
      unfold canonical_mantissa. rewrite fexp_64. apply Z.eqb_eq. lia.
    - rewrite binary_round_aux_canonical.
      + destruct (_ <=? 971) eqn:Hle; [reflexivity|]. apply Z.leb_gt in Hle. lia.
      + unfold canonical_mantissa. rewrite digits2_pos_shift, fexp_64. apply Z.eqb_eq. lia. }
  destruct n as [|m|m]; [reflexivity|apply Hpos; lia|apply Hpos; lia].
Qed.

Lemma of_int_exact (n : Z) : Z.abs n < 2 ^ 53 → Float.of_int n = Ok (Float.of_Z n).
Proof. intros Hn. apply of_int_finite, of_Z_exact_finite, Hn. Qed.

(** *** Integers too large for a float *)

Lemma shr_1_m (mrs : shr_record) : 0 ≤ shr_m mrs → shr_m (shr_1 mrs) = shr_m mrs / 2.
Proof.
  destruct mrs as [m r s]. cbn [shr_m]. intros Hm.
  destruct m as [|[p|p|]|p]; cbn [shr_1 shr_m]; try lia;
    first [ reflexivity
          | apply (Z.div_unique _ 2 _ 1); lia
          | apply (Z.div_unique _ 2 _ 0); lia ].
Qed.

Lemma iter_shr_1_m (p : positive) (mrs : shr_record) :
  0 ≤ shr_m mrs → shr_m (SpecFloat.iter_pos shr_1 p mrs) = shr_m mrs / 2 ^ Z.pos p.
Proof.
  revert mrs. induction p as [p IH|p IH|]; intros mrs Hm; cbn [SpecFloat.iter_pos].
  - assert (0 ≤ shr_m (shr_1 mrs)) by (rewrite shr_1_m by lia; apply Z.div_pos; lia).
    assert (0 ≤ shr_m (SpecFloat.iter_pos shr_1 p (shr_1 mrs)))
      by (rewrite IH by lia; apply Z.div_pos; lia).
    rewrite !IH, shr_1_m by lia. rewrite !Z.div_div by lia. f_equal.
    rewrite Pos2Z.inj_xI, Z.pow_add_r, Z.pow_mul_r by lia.
    change (2 ^ 2) with 4. change (2 ^ 1) with 2.
    replace (4 ^ Z.pos p) with (2 ^ Z.pos p * 2 ^ Z.pos p).
    + lia.
    + rewrite <- Z.pow_add_r by lia. replace (Z.pos p + Z.pos p) with (2 * Z.pos p) by lia.
      rewrite Z.pow_mul_r by lia. reflexivity.
  - assert (0 ≤ shr_m (SpecFloat.iter_pos shr_1 p mrs))
      by (rewrite IH by lia; apply Z.div_pos; lia).
    rewrite !IH by lia. rewrite Z.div_div by lia. f_equal.
    rewrite <- Z.pow_add_r by lia. f_equal. lia.
  - rewrite shr_1_m by lia. reflexivity.
Qed.

(** Shifting a mantissa down to the precision of the format leaves it
    positive and does not lower the exponent. *)
Lemma shr_fexp_positive (m : positive) (e : Z) (l : location) :
  -1074 ≤ e →
  ∃ (m' : positive) (r s : bool) (e' : Z),
    shr_fexp Float.prec Float.emax (Z.pos m) e l
    = ({| shr_m := Z.pos m'; shr_r := r; shr_s := s |}, e') ∧ e ≤ e'.
Proof.
  intros He. unfold shr_fexp, shr. cbn [Zdigits2]. rewrite fexp_64.
  destruct (Z.max (Z.pos (digits2_pos m) + e - 53) (-1074) - e) as [|p|p] eqn:Hshift.
  - destruct l as [|[| |]]; cbn [shr_record_of_loc]; do 4 eexists; (split; [reflexivity|lia]).
  - set (mrs := shr_record_of_loc (Z.pos m) l).
    assert (Hm : shr_m mrs = Z.pos m) by (destruct l as [|[| |]]; reflexivity).
    pose proof (iter_shr_1_m p mrs ltac:(lia)) as Hiter. rewrite Hm in Hiter.
    assert (Hq : 0 < Z.pos m / 2 ^ Z.pos p).
    { apply Z.div_str_pos. split; [lia|].
      pose proof (digits2_pos_lower m) as Hlo.
      assert (2 ^ Z.pos p ≤ 2 ^ (Z.pos (digits2_pos m) - 1)) by (apply Z.pow_le_mono_r; lia).
      lia. }
    destruct (SpecFloat.iter_pos shr_1 p mrs) as [q r s]. cbn [shr_m] in Hiter.
    destruct q as [|q|q]; try lia.
    exists q, r, s, (e + Z.pos p). split; [reflexivity|lia].
  - destruct l as [|[| |]]; cbn [shr_record_of_loc]; do 4 eexists; (split; [reflexivity|lia]).
Qed.

Lemma binary_round_aux_overflow (s : bool) (m : positive) (e : Z) :
  972 ≤ Z.max (Z.pos (digits2_pos m) + e - 53) e → -1074 ≤ e →
  binary_round_aux Float.prec Float.emax s (Z.pos m) e loc_Exact = S754_infinity s.
Proof.
  intros Hbig He. unfold binary_round_aux.
  assert (Hfirst : ∃ (m' : positive) (r t : bool) (e' : Z),
            shr_fexp Float.prec Float.emax (Z.pos m) e loc_Exact
            = ({| shr_m := Z.pos m'; shr_r := r; shr_s := t |}, e') ∧ 972 ≤ e').
  { destruct (shr_fexp_positive m e loc_Exact He) as (m' & r & t & e' & Heq & Hle).
    exists m', r, t, e'. split; [exact Heq|].
    unfold shr_fexp, shr in Heq. cbn [Zdigits2] in Heq. rewrite fexp_64 in Heq.
    destruct (Z.max (Z.pos (digits2_pos m) + e - 53) (-1074) - e) as [|p|p] eqn:Hshift;
      injection Heq as _ <-; lia. }
  destruct Hfirst as (m' & r & t & e' & -> & He').
  cbn [shr_m].
  assert (Hround : ∃ m'' : positive,
            round_nearest_even (Z.pos m')
              (loc_of_shr_record {| shr_m := Z.pos m'; shr_r := r; shr_s := t |})
            = Z.pos m'').
  { destruct r, t; cbn [loc_of_shr_record round_nearest_even];
      try destruct (Z.even (Z.pos m')); eexists; try reflexivity.
    all: rewrite Pos2Z.add_pos_pos; reflexivity. }
  destruct Hround as [m'' ->].
  destruct (shr_fexp_positive m'' e' loc_Exact ltac:(lia)) as (m3 & r3 & t3 & e3 & -> & Hle3).
  cbn [shr_m]. rewrite (proj2 (Z.leb_gt _ _)); [reflexivity|].
  change (Float.emax - Float.prec) with 971. lia.
Qed.

Lemma of_int_overflow (n : Z) :
  2 ^ 1024 ≤ Z.abs n →
  Float.of_int n = Raise (OverflowError "int too large to convert to float").
Proof.
  intros Hn.
  assert (Hpos : ∀ (s : bool) (m : positive), 2 ^ 1024 ≤ Z.pos m →
            binary_round Float.prec Float.emax s m 0 = S754_infinity s).
  { intros s m Hm. pose proof (digits2_pos_gt m 1024 ltac:(lia) Hm) as Hd.
    unfold binary_round, shl_align. rewrite fexp_64.
    destruct (Z.max (Z.pos (digits2_pos m) + 0 - 53) (-1074) - 0) as [|k|k] eqn:Hshift; try lia.
    apply binary_round_aux_overflow; lia. }
  unfold Float.of_int, Float.of_Z.
  destruct n as [|m|m]; cbn [binary_normalize].
  - exfalso. assert (0 < 2 ^ 1024) by (apply Z.pow_pos_nonneg; lia). lia.
  - rewrite Hpos by lia. reflexivity.
  - rewrite Hpos by lia. reflexivity.
Qed.

Lemma int_mul_exact (n : Z) (x : float) :
  Z.abs n < 2 ^ 53 → Float.int_mul n x = Ok (Float.mul (Float.of_Z n) x).
Proof. intros Hn. unfold Float.int_mul. rewrite of_int_exact by exact Hn. reflexivity. Qed.

Lemma int_mul_overflow (n : Z) (x : float) :
  2 ^ 1024 ≤ Z.abs n →
  Float.int_mul n x = Raise (OverflowError "int too large to convert to float").
Proof. intros Hn. unfold Float.int_mul. rewrite of_int_overflow by exact Hn. reflexivity. Qed.

(** X7. The static methods check no range: on every channel of magnitude
    below 2^52 they return the line of their formula, continued from the
    start of the first sub-range inside it and from the start of the last
    one everywhere else. *)
Theorem static_formulas_unchecked (arfcn : Z) :
  Z.abs arfcn < 2 ^ 52 →
  calculate_gsm900 arfcn =
    Ok (linear_formula f880_2 f0_2 (if (1 <=? arfcn) && (arfcn <=? 124) then 1 else 128) arfcn,
        linear_formula f925_2 f0_2 (if (1 <=? arfcn) && (arfcn <=? 124) then 1 else 128) arfcn) ∧
  calculate_gsm1800 arfcn =
    Ok (linear_formula (Float.of_Z 1710) f0_2
          (if (512 <=? arfcn) && (arfcn <=? 885) then 512 else 1024) arfcn,
        linear_formula (Float.of_Z 1805) f0_2
          (if (512 <=? arfcn) && (arfcn <=? 885) then 512 else 1024) arfcn) ∧
  calculate_umts2100 arfcn =
    Ok (linear_formula f1922_4 f0_2 10562 arfcn, linear_formula f2112_4 f0_2 10562 arfcn) ∧
  calculate_lte1800 arfcn =
    Ok (linear_formula (Float.of_Z 1710) f0_1 300 arfcn,
        linear_formula (Float.of_Z 1805) f0_1 300 arfcn).
Proof.
  intros Hn. change (2 ^ 52) with 4503599627370496 in Hn.
  assert (Hoff : ∀ c, 0 ≤ c ≤ 10562 → Z.abs (arfcn - c) < 2 ^ 53)
    by (intros c Hc; change (2 ^ 53) with 9007199254740992; lia).
  unfold calculate_gsm900, calculate_gsm1800, calculate_umts2100, calculate_lte1800,
    linear_formula.
  split_and!.
  - destruct ((1 <=? arfcn) && (arfcn <=? 124));
      rewrite !int_mul_exact by (apply Hoff; lia); reflexivity.
  - destruct ((512 <=? arfcn) && (arfcn <=? 885));
      rewrite !int_mul_exact by (apply Hoff; lia); reflexivity.
  - rewrite !int_mul_exact by (apply Hoff; lia). reflexivity.
  - rewrite !int_mul_exact by (apply Hoff; lia). reflexivity.
Qed.

Lemma static_formulas_unchecked_witness :
  calculate_gsm900 125 =
    Ok (linear_formula f880_2 f0_2 128 125, linear_formula f925_2 f0_2 128 125) ∧
  calculate_lte1800 (-1) =
    Ok (linear_formula (Float.of_Z 1710) f0_1 300 (-1),
        linear_formula (Float.of_Z 1805) f0_1 300 (-1)).
Proof.
  split.
  - refine (proj1 (static_formulas_unchecked 125 _)). vm_compute. reflexivity.
  - refine (proj2 (proj2 (proj2 (static_formulas_unchecked (-1) _)))). vm_compute. reflexivity.
Defined.

(** X8. An integer too large for a float makes every static method raise
    [OverflowError]; [calculate_frequencies] raises a [ValueError] on the
    same integer, before any conversion to a float: the one that spells the
    channel up to 4300 digits, the one of the refused formatting beyond. *)
Theorem static_formulas_overflow (arfcn : Z) :
  2 ^ 1024 + 10562 ≤ Z.abs arfcn →
  calculate_gsm900 arfcn = Raise (OverflowError "int too large to convert to float") ∧
  calculate_gsm1800 arfcn = Raise (OverflowError "int too large to convert to float") ∧
  calculate_umts2100 arfcn = Raise (OverflowError "int too large to convert to float") ∧
  calculate_lte1800 arfcn = Raise (OverflowError "int too large to convert to float") ∧
  ∃ message,
    calculate_frequencies cls arfcn = Raise (ValueError message) ∧
    (Z.abs arfcn < 10 ^ 4300 → message = channel_message (pretty arfcn)) ∧
    (10 ^ 4300 ≤ Z.abs arfcn → message = digit_limit_message).
Proof.
  intros Hn. assert (Hbig : 0 < 2 ^ 1024) by (apply Z.pow_pos_nonneg; lia).
  assert (Hoff : ∀ c, 0 ≤ c ≤ 10562 → 2 ^ 1024 ≤ Z.abs (arfcn - c)) by (intros c Hc; lia).
  unfold calculate_gsm900, calculate_gsm1800, calculate_umts2100, calculate_lte1800.
  split_and!.
  - destruct ((1 <=? arfcn) && (arfcn <=? 124));
      rewrite int_mul_overflow by (apply Hoff; lia); reflexivity.
  - destruct ((512 <=? arfcn) && (arfcn <=? 885));
      rewrite int_mul_overflow by (apply Hoff; lia); reflexivity.
  - rewrite int_mul_overflow by (apply Hoff; lia). reflexivity.
  - rewrite int_mul_overflow by (apply Hoff; lia). reflexivity.
  - apply (calculate_frequencies_undetected_message cls), beyond_ranges_undetected. lia.
Qed.

Lemma static_formulas_overflow_witness :
  calculate_umts2100 (2 ^ 1025) = Raise (OverflowError "int too large to convert to float") ∧
  calculate_frequencies cls (2 ^ 1025) =
    Raise (ValueError (channel_message (pretty (2 ^ 1025)))).
Proof.
  assert (H : 2 ^ 1024 + 10562 ≤ Z.abs (2 ^ 1025)) by (vm_compute; discriminate).
  destruct (static_formulas_overflow (2 ^ 1025) H)
    as (_ & _ & Humts & _ & message & Hraise & Hshort & _).
  split; [exact Humts|].
  rewrite Hraise, Hshort; [reflexivity|]. vm_compute. reflexivity.
Defined.

(** ** The window *)

(** The centre frequency of a declared channel is within 2^-41 MHz of the
    midpoint of the two exact frequencies, and is displayed as that
    midpoint. *)
Lemma center_display_exact (b : band) (arfcn : Z) :
  b ∈ declared_bands →
  band_start b ≤ arfcn ≤ band_stop b →
  exact_uplink_tenths b arfcn + exact_downlink_tenths b arfcn = 2 * exact_center_tenths b arfcn ∧
  (Qabs (Float.to_Q (center_of arfcn) - (exact_center_tenths b arfcn # 10)) <= 2 ^ (-41))%Q ∧
  format_3f (center_of arfcn) = format_tenths (exact_center_tenths b arfcn).
Proof.
  intros Hb Hr.
  set (check := λ (b : band) (a : Z),
         (exact_uplink_tenths b a + exact_downlink_tenths b a =? 2 * exact_center_tenths b a) &&
         near (center_of a) (exact_center_tenths b a # 10) (2 ^ (-41)) &&
         String.eqb (format_3f (center_of a)) (format_tenths (exact_center_tenths b a))).
  assert (Hc : check b arfcn = true).
  { revert Hr. pattern b. revert b Hb. apply band_cases.
    repeat apply Forall_cons_2; [..|apply Forall_nil_2];
      cbn [band_start band_stop]; revert arfcn;
      match goal with
      | |- ∀ a, ?lo ≤ a ≤ ?hi → _ => by_enumeration lo hi
      end. }
  unfold check in Hc.
  apply andb_prop in Hc as [Hc Hs%String.eqb_eq]. apply andb_prop in Hc as [He%Z.eqb_eq Hn].
  apply near_spec in Hn as [_ Hn]. split; [exact He|]. split; assumption.
Qed.

(** X9. For every declared channel the uplink, the downlink and the centre
    frequency computed from them are within 2^-41 MHz of the values of the
    formula in exact arithmetic (the centre of their midpoint), and the
    three-decimal display prints exactly those values. *)
Theorem frequencies_exact_on_display (b : band) (arfcn : Z) :
  b ∈ declared_bands →
  band_start b ≤ arfcn ≤ band_stop b →
  ((Qabs (Float.to_Q (uplink_of arfcn) - (exact_uplink_tenths b arfcn # 10)) <= 2 ^ (-41))%Q ∧
   format_3f (uplink_of arfcn) = format_tenths (exact_uplink_tenths b arfcn)) ∧
  ((Qabs (Float.to_Q (downlink_of arfcn) - (exact_downlink_tenths b arfcn # 10)) <= 2 ^ (-41))%Q ∧
   format_3f (downlink_of arfcn) = format_tenths (exact_downlink_tenths b arfcn)) ∧
  (exact_uplink_tenths b arfcn + exact_downlink_tenths b arfcn = 2 * exact_center_tenths b arfcn ∧
   (Qabs (Float.to_Q (center_of arfcn) - (exact_center_tenths b arfcn # 10)) <= 2 ^ (-41))%Q ∧
   format_3f (center_of arfcn) = format_tenths (exact_center_tenths b arfcn)).
Proof.
  intros Hb Hr.
  destruct (frequencies_near_exact b arfcn Hb Hr) as (Hu & Hd & Hus & Hds).
  destruct (center_display_exact b arfcn Hb Hr) as (He & Hc & Hcs).
  split; [split; assumption|]. split; [split; assumption|].
  split; [exact He|]. split; assumption.
Qed.

Lemma frequencies_exact_on_display_witness :
  format_3f (uplink_of 10563) = "1922.600" ∧ format_3f (downlink_of 10563) = "2112.600" ∧
  format_3f (center_of 10563) = "2017.600".
Proof.
  destruct (frequencies_exact_on_display
    {| band_name := "UMTS 2100"; band_start := 10562; band_stop := 10687;
       uplink_tenths := 19224; downlink_tenths := 21124; step_tenths := 2 |} 10563)
    as ((_ & Hu) & (_ & Hd) & (_ & _ & Hc)).
  - do 4 right. left.
  - simpl. lia.
  - split; [exact Hu|]. split; [exact Hd|exact Hc].
Defined.

Section Handler.

Variable int_of_str : string → result Z.
Variable str_of_float : float → string.

Lemma calculate_try_ok (g : gui) (arfcn : Z) (uplink downlink : float) (network : string) :
  int_of_str (arfcn_entry g) = Ok arfcn →
  calculate_frequencies cls arfcn = Ok (uplink, downlink, network) →
  ∃ center_freq,
    calculate_center_frequency uplink downlink = Ok center_freq ∧
    calculate int_of_str str_of_float g =
    {| arfcn_entry := arfcn_entry g;
       texts :=
         <["modulation_label" :=
             "Modulation: " +:+ default "--" (get_network_capabilities cls network !! "Modulation")]>
         (<["features_label" :=
             "Features: " +:+ default "--" (get_network_capabilities cls network !! "Features")]>
         (<["data_rate_label" :=
             "Max Data Rate: " +:+
             default "--" (get_network_capabilities cls network !! "Max Data Rate")]>
         (<["tech_label" :=
             "Technology: " +:+
             default "--" (get_network_capabilities cls network !! "Technology")]>
         (<["network_label" := "Network Type: " +:+ network]>
         (<["channel_spacing_label" :=
             "Channel Spacing: " +:+ str_of_float (get_channel_spacing cls network) +:+ " MHz"]>
         (<["center_freq_label" := "Center Frequency: " +:+ format_3f center_freq +:+ " MHz"]>
         (<["downlink_label" := "Downlink Frequency: " +:+ format_3f downlink +:+ " MHz"]>
         (<["uplink_label" := "Uplink Frequency: " +:+ format_3f uplink +:+ " MHz"]>
          (texts g)))))))));
       dialogs := dialogs g |}.
Proof.
  intros Hint Hcalc. eexists. split; [reflexivity|].
  unfold calculate, calculate_try.
  unfold mbind, action_bind, entry_get, lift. rewrite Hint, Hcalc.
  reflexivity.
Qed.


(** X10. A failed calculation changes no label and shows one dialog titled
    Error: with the message of [int] when the text is not an integer, with
    the message of the [ValueError] of [calculate_frequencies] when the
    integer is in no declared range (the one naming the channel, up to 4300
    digits), and with the generic text only for an exception of [int] that
    is not a [ValueError]. *)
Theorem calculate_failure (g : gui) :
  (∀ msg, int_of_str (arfcn_entry g) = Raise (ValueError msg) →
     calculate int_of_str str_of_float g = showerror "Error" msg g) ∧
  (∀ arfcn, int_of_str (arfcn_entry g) = Ok arfcn → ¬ declared cls arfcn →
     ∃ message,
       calculate_frequencies cls arfcn = Raise (ValueError message) ∧
       calculate int_of_str str_of_float g = showerror "Error" message g ∧
       (Z.abs arfcn < 10 ^ 4300 → message = channel_message (pretty arfcn)) ∧
       (10 ^ 4300 ≤ Z.abs arfcn → message = digit_limit_message)) ∧
  (∀ e, int_of_str (arfcn_entry g) = Raise e → (∀ msg, e ≠ ValueError msg) →
     calculate int_of_str str_of_float g =
       showerror "Error" ("An unexpected error occurred: " +:+ exn_message e) g).
Proof.
  split_and!.
  - intros msg Hint. unfold calculate, calculate_try.
    unfold mbind, action_bind, entry_get, lift. rewrite Hint. reflexivity.
  - intros arfcn Hint Hout.
    destruct (calculate_frequencies_undetected_message cls arfcn
                (not_declared_undetected arfcn Hout)) as (message & Hraise & Hshort & Hlong).
    exists message. split; [exact Hraise|]. split; [|split; assumption].
    unfold calculate, calculate_try.
    unfold mbind, action_bind, entry_get, lift. rewrite Hint, Hraise. reflexivity.
  - intros e Hint Hne. unfold calculate, calculate_try.
    unfold mbind, action_bind, entry_get, lift. rewrite Hint.
    destruct e as [msg|msg|msg]; [destruct (Hne msg); reflexivity|reflexivity..].
Qed.

Lemma capabilities_of_band (b : band) :
  b ∈ declared_bands →
  ∃ technology rate features modulation,
    get_network_capabilities cls (band_name b) = caps technology rate features modulation.
Proof.
  intros Hb. apply band_name_known in Hb. unfold get_network_capabilities.
  cbn [NETWORK_CAPABILITIES cls].
  repeat (apply elem_of_cons in Hb as [->|Hb]); [..|apply elem_of_nil in Hb as []].
  all: rewrite ?lookup_insert_ne by discriminate; rewrite lookup_insert_eq.
  all: do 4 eexists; reflexivity.
Qed.

Lemma caps_fields (technology rate features modulation : string) :
  caps technology rate features modulation !! "Technology" = Some technology ∧
  caps technology rate features modulation !! "Max Data Rate" = Some rate ∧
  caps technology rate features modulation !! "Features" = Some features ∧
  caps technology rate features modulation !! "Modulation" = Some modulation.
Proof.
  unfold caps. split_and!.
  all: rewrite ?lookup_insert_ne by discriminate; rewrite lookup_insert_eq; reflexivity.
Qed.

(** X11. A calculation on a declared channel shows no dialog and sets the
    nine result labels and no other text: the three frequencies as the
    exact decimals of the formula, the name of the standard, its spacing
    and its four capability fields, none left at the placeholder. *)
Theorem calculate_success (g : gui) (b : band) (arfcn : Z) :
  int_of_str (arfcn_entry g) = Ok arfcn →
  b ∈ declared_bands →
  band_start b ≤ arfcn ≤ band_stop b →
  let g' := calculate int_of_str str_of_float g in
  arfcn_entry g' = arfcn_entry g ∧
  dialogs g' = dialogs g ∧
  texts g' !! "uplink_label" =
    Some ("Uplink Frequency: " +:+ format_tenths (exact_uplink_tenths b arfcn) +:+ " MHz") ∧
  texts g' !! "downlink_label" =
    Some ("Downlink Frequency: " +:+ format_tenths (exact_downlink_tenths b arfcn) +:+ " MHz") ∧
  texts g' !! "center_freq_label" =
    Some ("Center Frequency: " +:+ format_tenths (exact_center_tenths b arfcn) +:+ " MHz") ∧
  texts g' !! "channel_spacing_label" =
    Some ("Channel Spacing: " +:+ str_of_float (get_channel_spacing cls (band_name b)) +:+ " MHz") ∧
  texts g' !! "network_label" = Some ("Network Type: " +:+ band_name b) ∧
  (∃ technology rate features modulation,
     get_network_capabilities cls (band_name b) = caps technology rate features modulation ∧
     texts g' !! "tech_label" = Some ("Technology: " +:+ technology) ∧
     texts g' !! "data_rate_label" = Some ("Max Data Rate: " +:+ rate) ∧
     texts g' !! "features_label" = Some ("Features: " +:+ features) ∧
     texts g' !! "modulation_label" = Some ("Modulation: " +:+ modulation)) ∧
  (∀ label, label ∉ result_labels → texts g' !! label = texts g !! label).
Proof.
  intros Hint Hb Hr g'.
  pose proof (calculate_frequencies_band b arfcn Hb Hr) as Hcalc.
  destruct (calculate_try_ok g arfcn _ _ _ Hint Hcalc) as (center_freq & Hcenter & Hg).
  destruct (frequencies_near_exact b arfcn Hb Hr) as (_ & _ & Hup & Hdown).
  destruct (center_display_exact b arfcn Hb Hr) as (_ & _ & Hmid).
  unfold center_of, uplink_of, downlink_of in Hup, Hdown, Hmid.
  rewrite Hcalc in Hup, Hdown, Hmid. rewrite Hcenter in Hmid.
  destruct (capabilities_of_band b Hb) as (t & r & f & m & Hcaps).
  destruct (caps_fields t r f m) as (Ht & Hrate & Hf & Hm).
  subst g'. rewrite Hg. cbn [arfcn_entry dialogs texts]. rewrite Hcaps, Ht, Hrate, Hf, Hm.
  cbn [default]. rewrite <- Hup, <- Hdown, <- Hmid.
  split; [reflexivity|]. split; [reflexivity|].
  split_and!.
  1-5: rewrite ?lookup_insert_ne by discriminate; rewrite lookup_insert_eq; reflexivity.
  - exists t, r, f, m. split; [reflexivity|]. split_and!.
    all: rewrite ?lookup_insert_ne by discriminate; rewrite lookup_insert_eq; reflexivity.
  - intros label Hl. unfold result_labels in Hl. rewrite !not_elem_of_cons in Hl.
    rewrite !lookup_insert_ne by (intros <-; tauto). reflexivity.
Qed.

End Handler.

Lemma calculate_failure_witness :
  calculate sample_int (λ _, "") (sample_window "abc") =
    showerror "Error" "invalid literal for int() with base 10: 'abc'" (sample_window "abc") ∧
  calculate sample_int (λ _, "") (sample_window "125") =
    showerror "Error" "ARFCN 125 is not in any known network range" (sample_window "125").
Proof.
  split.
  - refine (proj1 (calculate_failure sample_int (λ _, "") (sample_window "abc")) _ _).
    reflexivity.
  - destruct (proj1 (proj2 (calculate_failure sample_int (λ _, "") (sample_window "125")))
                125) as (message & _ & Hshown & Hshort & _).
    + reflexivity.
    + rewrite detect_network_declared. vm_compute. intros [? [=]].
    + rewrite Hshown, Hshort; [reflexivity|]. vm_compute. reflexivity.
Defined.

Lemma calculate_success_witness :
  texts (calculate sample_int (λ _, "") (sample_window "200")) !! "uplink_label" =
    Some "Uplink Frequency: 894.600 MHz".
Proof.
  refine (proj1 (proj2 (proj2 (calculate_success sample_int (λ _, "") (sample_window "200")
    {| band_name := "GSM 900"; band_start := 128; band_stop := 251;
       uplink_tenths := 8802; downlink_tenths := 9252; step_tenths := 2 |} 200 _ _ _)))).
  - reflexivity.
  - right. left.
  - simpl. lia.
Defined.

(** *** The geometry of the window and the mouse wheel *)

Lemma all_from_spec (count : nat) (lo : Z) (p : Z → bool) :
  all_from count lo p = true → ∀ n, lo ≤ n < lo + Z.of_nat count → p n = true.
Proof.
  revert lo. induction count as [|k IH]; intros lo Hall n Hn; [lia|].
  cbn [all_from] in Hall. destruct (p lo) eqn:Hp; [|discriminate].
  destruct (decide (n = lo)) as [->|Hne]; [exact Hp|].
  apply (IH (lo + 1) Hall). lia.
Qed.

Lemma all_in_spec (lo hi : Z) (p : Z → bool) :
  all_in lo hi p = true → ∀ n, lo ≤ n ≤ hi → p n = true.
Proof.
  unfold all_in. intros Hall n Hn. apply (all_from_spec _ _ _ Hall).
  rewrite Z2Nat.id by lia. lia.
Qed.

Lemma result_Z_eqb_eq (r : result Z) (n : Z) : result_Z_eqb r n = true → r = Ok n.
Proof. destruct r as [m|e]; simpl; [intros ->%Z.eqb_eq; reflexivity|discriminate]. Qed.

Lemma result_units_eqb_eq (r : result (option Z)) (n : Z) :
  result_units_eqb r n = true → r = Ok (Some n).
Proof.
  destruct r as [[m|]|e]; simpl; try discriminate. intros ->%Z.eqb_eq. reflexivity.
Qed.

Lemma center_offset_quot (screen : Z) :
  0 ≤ screen ≤ 32767 →
  center_offset screen window_width = Ok ((screen - window_width) ÷ 2) ∧
  center_offset screen window_height = Ok ((screen - window_height) ÷ 2).
Proof.
  intros Hs.
  assert (Hc : result_Z_eqb (center_offset screen window_width) ((screen - window_width) ÷ 2) &&
               result_Z_eqb (center_offset screen window_height) ((screen - window_height) ÷ 2)
               = true).
  { revert screen Hs. apply (all_in_spec 0 32767). vm_compute. reflexivity. }
  apply andb_prop in Hc as [Hw Hh]. split; apply result_Z_eqb_eq; assumption.
Qed.

(** X12. On a screen of up to 32767 pixels each way the window is placed at
    half the free space, truncated towards zero: the float arithmetic of
    [__init__] loses nothing, and a screen two pixels or more smaller than
    the window gives a negative offset. *)
Theorem window_geometry_centered (screen_width screen_height : Z) :
  0 ≤ screen_width ≤ 32767 →
  0 ≤ screen_height ≤ 32767 →
  window_geometry screen_width screen_height =
    Ok ("600x900+" +:+ pretty ((screen_width - 600) ÷ 2) +:+
        "+" +:+ pretty ((screen_height - 900) ÷ 2)).
Proof.
  intros Hw Hh. unfold window_geometry.
  rewrite (proj1 (center_offset_quot screen_width Hw)).
  rewrite (proj2 (center_offset_quot screen_height Hh)).
  cbn [mbind result_bind].
  rewrite (str_of_int_short ((screen_width - window_width) ÷ 2)),
    (str_of_int_short ((screen_height - window_height) ÷ 2)).
  - reflexivity.
  - pose proof (Z.quot_le_mono (screen_height - window_height) 32767 2) as Hup.
    pose proof (Z.quot_le_mono (-900) (screen_height - window_height) 2) as Hlo.
    unfold window_height in *. change (32767 ÷ 2) with 16383 in Hup.
    change (-900 ÷ 2) with (-450) in Hlo. lia.
  - pose proof (Z.quot_le_mono (screen_width - window_width) 32767 2) as Hup.
    pose proof (Z.quot_le_mono (-600) (screen_width - window_width) 2) as Hlo.
    unfold window_width in *. change (32767 ÷ 2) with 16383 in Hup.
    change (-600 ÷ 2) with (-300) in Hlo. lia.
Qed.

Lemma window_geometry_centered_witness :
  window_geometry 1367 769 = Ok "600x900+383+-65".
Proof. refine (window_geometry_centered 1367 769 _ _); lia. Defined.

(** X13. With the scrollbar visible the wheel scrolls by minus the whole number
    of 120s in the delta, so a delta smaller than 120 scrolls by nothing;
    with the scrollbar hidden nothing is scrolled. *)
Theorem on_mousewheel_units (delta : Z) :
  -32768 ≤ delta ≤ 32767 →
  on_mousewheel true delta = Ok (Some (- (delta ÷ 120))) ∧
  (-120 < delta < 120 → on_mousewheel true delta = Ok (Some 0)) ∧
  on_mousewheel false delta = Ok None.
Proof.
  intros Hd.
  assert (Hc : result_units_eqb (on_mousewheel true delta) (- (delta ÷ 120)) = true)
    by (revert delta Hd; apply (all_in_spec (-32768) 32767); vm_compute; reflexivity).
  apply result_units_eqb_eq in Hc. split_and!.
  - exact Hc.
  - intros Hsmall. rewrite Hc. do 2 f_equal.
    assert (delta ÷ 120 = 0) as -> by (apply Z.quot_small_iff; lia). reflexivity.
  - reflexivity.
Qed.

Lemma on_mousewheel_units_witness :
  on_mousewheel true (-240) = Ok (Some 2) ∧ on_mousewheel true 1 = Ok (Some 0).
Proof.
  split.
  - refine (proj1 (on_mousewheel_units (-240) _)). lia.
  - refine (proj1 (proj2 (on_mousewheel_units 1 _)) _); lia.
Defined.

